(** * jira_helper.py: a shallow embedding of the ticket client

    The script [scripts/jira_helper.py] talks to a ticket tracker over HTTP
    and prints formatted text.  Here the three operations of [JiraHelper]
    and the command-line dispatch are written as Rocq functions:

    - the network is an abstract world threaded through [urlopen];
      every request that is issued is also recorded in a log, with
      what [urlopen] answered;
    - [print] appends one string per call to the output;
    - a Python exception is a value [Raise e] of the result type [res];
    - a decoded JSON document is a value of [json]; a dynamic type error
      of Python (calling [.get] on something that is no dict, ...) raises;
    - a Python str is kept as its UTF-8 encoding; its length, its slices
      and its iteration count characters (code points), not bytes.

    Python builtins whose full definition lives in the interpreter
    ([str.lower], [int], [repr], the text of an exception, base64) are
    parameters of the development. *)

From Stdlib Require Import ZArith Ascii String.
From Stdlib Require Import Numbers.DecimalString Numbers.DecimalZ Numbers.DecimalPos.
From stdpp Require Import base option list sorting gmap strings.

Local Open Scope Z_scope.
Set Warnings "-register-all".

(** ** Exceptions and results *)

Inductive exn : Type :=
| URLError (reason : string)       (* urlopen: network failure, 404, 401, ... *)
| JSONDecodeError
| KeyError (k : string)
| IndexError
| TypeError
| AttributeError
| ValueError
| OSError (reason : string)        (* open() on the credential file *)
| UnicodeEncodeError.

Inductive res (A : Type) : Type :=
| Ok (a : A)
| Raise (e : exn).
Arguments Ok {A} a.
Arguments Raise {A} e.

Global Instance res_ret : MRet res := λ A, Ok.
Global Instance res_bind : MBind res := λ A B f r,
  match r with
  | Ok a => f a
  | Raise e => Raise e
  end.

(** ** Decoded JSON

    What [json.loads] returns: [None], a bool, an int, a str, a list or
    a dict.  A dict is kept as the list of its items; a lookup takes the
    first binding of the key.  Numbers are integers: no field the client
    reads holds a fractional number. *)

Inductive json : Type :=
| JNull
| JBool (b : bool)
| JNum (n : Z)
| JStr (s : string)
| JArr (l : list json)
| JObj (d : list (string * json)).

Fixpoint assoc (k : string) (d : list (string * json)) : option json :=
  match d with
  | [] => None
  | (k', v) :: d' => if String.eqb k k' then Some v else assoc k d'
  end.

(** [o.get(k, dflt)]: only a dict has the method. *)
Definition get (o : json) (k : string) (dflt : json) : res json :=
  match o with
  | JObj d => Ok (default dflt (assoc k d))
  | _ => Raise AttributeError
  end.

(** [o[k]] for a string [k]: [KeyError] on a dict without the key,
    [TypeError] on everything else. *)
Definition getitem (o : json) (k : string) : res json :=
  match o with
  | JObj d => match assoc k d with
              | Some v => Ok v
              | None => Raise (KeyError k)
              end
  | _ => Raise TypeError
  end.

(** Truth value of a decoded value, as [if v] and [not v] take it. *)
Definition truthy (v : json) : bool :=
  match v with
  | JNull => false
  | JBool b => b
  | JNum n => negb (n =? 0)
  | JStr s => negb (String.eqb s "")
  | JArr l => match l with [] => false | _ => true end
  | JObj d => match d with [] => false | _ => true end
  end.

(** ** Characters of a str

    A str is held as its UTF-8 encoding.  A byte [10xxxxxx] continues
    the character that the bytes before it began; every other byte
    begins a character. *)

Definition is_continuation (c : ascii) : bool :=
  let n := N_of_ascii c in
  ((128 <=? n) && (n <? 192))%N.

(** [len(s)] *)
Fixpoint py_len (s : string) : nat :=
  match s with
  | EmptyString => O
  | String c s' => if is_continuation c then py_len s' else S (py_len s')
  end.

(** [s[:n]] *)
Fixpoint py_take (n : nat) (s : string) : string :=
  match s with
  | EmptyString => EmptyString
  | String c s' =>
      if is_continuation c then String c (py_take n s')
      else match n with
           | O => EmptyString
           | S n' => String c (py_take n' s')
           end
  end.

(** The continuation bytes at the front of [s], and the characters
    after them. *)
Fixpoint chars_aux (s : string) : string * list string :=
  match s with
  | EmptyString => (EmptyString, [])
  | String c s' =>
      let '(front, cs) := chars_aux s' in
      if is_continuation c then (String c front, cs)
      else (EmptyString, String c front :: cs)
  end.

(** [list(s)]: the one-character strs of [s]. *)
Definition chars (s : string) : list string :=
  let '(front, cs) := chars_aux s in
  match front with
  | EmptyString => cs
  | _ => front :: cs
  end.

(** The UTF-8 encoding of a code point and of a sequence of code
    points: the str of the characters [cps]. *)
Definition utf8_char (n : N) : string :=
  (if n <? 128 then
     String (ascii_of_N n) EmptyString
   else if n <? 2048 then
     String (ascii_of_N (192 + n / 64))
       (String (ascii_of_N (128 + n mod 64)) EmptyString)
   else if n <? 65536 then
     String (ascii_of_N (224 + n / 4096))
       (String (ascii_of_N (128 + (n / 64) mod 64))
          (String (ascii_of_N (128 + n mod 64)) EmptyString))
   else
     String (ascii_of_N (240 + (n / 262144) mod 8))
       (String (ascii_of_N (128 + (n / 4096) mod 64))
          (String (ascii_of_N (128 + (n / 64) mod 64))
             (String (ascii_of_N (128 + n mod 64)) EmptyString))))%N.

Definition utf8 (cps : list N) : string :=
  foldr (λ n s, utf8_char n +:+ s) EmptyString cps.

(** [for x in v]: a list gives its elements, a str its characters, a dict
    its keys; nothing else is iterable. *)
Definition iterate (v : json) : res (list json) :=
  match v with
  | JArr l => Ok l
  | JStr s => Ok (JStr <$> chars s)
  | JObj d => Ok ((λ kv, JStr kv.1) <$> d)
  | _ => Raise TypeError
  end.

(** ** Strings *)

(** [str(n)] of an int, as an f-string formats it. *)
Definition str_of_Z (z : Z) : string := NilZero.string_of_int (Z.to_int z).

(** [s.split(sep)] for a one-character separator. *)
Fixpoint split (sep : ascii) (s : string) : list string :=
  match s with
  | EmptyString => [EmptyString]
  | String c s' =>
      if Ascii.eqb c sep then EmptyString :: split sep s'
      else match split sep s' with
           | h :: t => String c h :: t
           | [] => [String c EmptyString]
           end
  end.

(** [c * n] for a one-character string [c]. *)
Fixpoint repeat_char (c : ascii) (n : nat) : string :=
  match n with
  | O => EmptyString
  | S n' => String c (repeat_char c n')
  end.

Definition hyphen : ascii := "-"%char.
Definition newline : string := String (ascii_of_nat 10) EmptyString.

(** ** Printing

    A computation that prints and may raise: the lines printed so far
    are kept when an exception propagates. *)

Record W (A : Type) : Type := mkW { out : list string; val : res A }.
Arguments mkW {A} out val.
Arguments out {A} w.
Arguments val {A} w.

Global Instance W_ret : MRet W := λ A a, mkW [] (Ok a).
Global Instance W_bind : MBind W := λ A B f w,
  match val w with
  | Ok a => mkW (out w ++ out (f a)) (val (f a))
  | Raise e => mkW (out w) (Raise e)
  end.

Definition print (s : string) : W unit := mkW [s] (Ok tt).
Definition lift {A} (r : res A) : W A := mkW [] r.

(** [for x in l: body(x)] *)
Fixpoint for_ {A} (l : list A) (body : A → W unit) : W unit :=
  match l with
  | [] => mret tt
  | x :: l' => body x ;; for_ l' body
  end.

(** ** Requests *)

Inductive method : Type := GET | POST.

(** The body of a POST is kept as the document that [json.dumps]
    serialises. *)
Record request : Type := {
  req_url : string;
  req_method : method;
  req_headers : list (string * string);
  req_data : option json
}.

Record JiraHelper : Type := {
  url : string;
  email : string;
  token : string;
  auth_b64 : string
}.

Definition issue_request (self : JiraHelper) (ticket_key : string) : request :=
  {| req_url := url self +:+ "/rest/api/3/issue/" +:+ ticket_key;
     req_method := GET;
     req_headers := [("Authorization", "Basic " +:+ auth_b64 self);
                     ("Accept", "application/json")];
     req_data := None |}.

Definition transitions_url (self : JiraHelper) (ticket_key : string) : string :=
  url self +:+ "/rest/api/3/issue/" +:+ ticket_key +:+ "/transitions".

Definition transitions_request (self : JiraHelper) (ticket_key : string) : request :=
  {| req_url := transitions_url self ticket_key;
     req_method := GET;
     req_headers := [("Authorization", "Basic " +:+ auth_b64 self);
                     ("Accept", "application/json")];
     req_data := None |}.

Definition transition_post (self : JiraHelper) (ticket_key : string)
    (transition_id : json) : request :=
  {| req_url := transitions_url self ticket_key;
     req_method := POST;
     req_headers := [("Authorization", "Basic " +:+ auth_b64 self);
                     ("Content-Type", "application/json");
                     ("Accept", "application/json")];
     req_data := Some (JObj [("transition", JObj [("id", transition_id)])]) |}.

(** ** Tickets found by the enumeration *)

Record ticket : Type := {
  key : string;
  summary : string;
  assignee : json
}.

(** Keys of the dict [tickets_found]: the hashable decoded values.
    [True] and [1] are the same key, as are [False] and [0]. *)
Inductive hkey : Type :=
| KStr (s : string)
| KNone
| KInt (n : Z).

Global Instance hkey_eq_dec : EqDecision hkey.
Proof. solve_decision. Defined.

Global Instance hkey_countable : Countable hkey.
Proof.
  refine (inj_countable'
    (λ k, match k with
          | KStr s => inl s
          | KNone => inr (inl ())
          | KInt n => inr (inr n)
          end)
    (λ x, match x with
          | inl s => KStr s
          | inr (inl _) => KNone
          | inr (inr n) => KInt n
          end) _).
  by intros [].
Defined.

Definition hash_key (v : json) : res hkey :=
  match v with
  | JStr s => Ok (KStr s)
  | JNull => Ok KNone
  | JBool b => Ok (KInt (if b then 1 else 0))
  | JNum n => Ok (KInt n)
  | JArr _ | JObj _ => Raise TypeError
  end.

(** [summary[:60] + ('...' if len(summary) > 60 else '')]: a str works;
    a list can be sliced but not added to a str; nothing else can be
    sliced. *)
Definition shorten (summary : json) : res string :=
  match summary with
  | JStr s =>
      Ok (py_take 60 s +:+ (if (60 <? py_len s)%nat then "..." else ""))
  | _ => Raise TypeError
  end.

(** [v == s] and [v != s] for a str literal [s]. *)
Definition eq_str (v : json) (s : string) : bool :=
  match v with
  | JStr s' => String.eqb s' s
  | _ => false
  end.

(** [assignee.get('displayName', 'Unassigned') if assignee else 'Unassigned'] *)
Definition assignee_name_of (assignee : json) : res json :=
  if truthy assignee then get assignee "displayName" (JStr "Unassigned")
  else Ok (JStr "Unassigned").

(** Lines 41-45 of [list_tickets]: what is read from one response. *)
Definition read_fields (data : json) : res (json * json * json) :=
  fields ← get data "fields" (JObj []);
  summary ← get fields "summary" (JStr "No summary");
  status_obj ← get fields "status" (JObj []);
  status ← get status_obj "name" (JStr "Unknown");
  assignee ← get fields "assignee" (JObj []);
  assignee_name ← assignee_name_of assignee;
  Ok (summary, status, assignee_name).

(** Lines 47-54: the dict after the statements, whether or not one of
    them raised.  The group is created before the new entry is built, so
    an entry that cannot be built leaves an empty group behind. *)
Definition store (ticket_key : string) (summary status assignee_name : json)
    (tickets_found : gmap hkey (list ticket)) : gmap hkey (list ticket) :=
  match hash_key status with
  | Raise _ => tickets_found
  | Ok k =>
      let found1 :=
        match tickets_found !! k with
        | Some _ => tickets_found
        | None => <[k := []]> tickets_found
        end in
      match shorten summary with
      | Raise _ => found1
      | Ok s =>
          <[k := default [] (found1 !! k)
                   ++ [{| key := ticket_key; summary := s;
                          assignee := assignee_name |}]]> found1
      end
  end.

(** [range(max_results, 0, -1)] *)
Definition range_down (max_results : Z) : list Z :=
  (λ i, max_results - Z.of_nat i) <$> seq 0 (Z.to_nat max_results).

Definition status_order : list string :=
  ["Gathering Requirements"; "Ready for Dev"; "In Progress"; "Ready for QA";
   "Client QA"; "Ready for Deploy"; "Done"].

(** [sorted(l, key=..., reverse=True)] on keys already computed: a
    stable sort, largest key first; elements with equal keys keep their
    order. *)
Fixpoint insert_desc {A} (x : Z * A) (l : list (Z * A)) : list (Z * A) :=
  match l with
  | [] => [x]
  | y :: l' => if x.1 <? y.1 then y :: insert_desc x l' else x :: y :: l'
  end.

Definition sort_desc {A} (l : list (Z * A)) : list (Z * A) :=
  foldr insert_desc [] l.

(** ** The environment of the script

    The network and the parts of the Python runtime that the script
    calls but does not define. *)

Class Runtime : Type := {
  World : Type;
  response : Type;
  (** [urllib.request.urlopen(req)] *)
  urlopen : request → World → res response * World;
  (** [json.loads(response.read())] *)
  load_json : response → res json;
  (** [open(path, "r").read()] *)
  read_file : string → res string;
  (** [s.strip()] *)
  strip : string → string;
  (** [base64.b64encode(s.encode('ascii')).decode('ascii')] *)
  b64encode : string → res string;
  (** [s.lower()] *)
  lower : string → string;
  (** [int(s)] *)
  py_int : string → res Z;
  (** [str(v)] of a decoded value that is no str *)
  repr : json → string;
  (** [str(e)] of an exception *)
  str_exn : exn → string
}.

Section Client.
Context `{Runtime}.

(** The state of a run: the world, and the requests issued so far with
    what [urlopen] answered. *)
Record St : Type := mkSt { world : World; log : list (request * res response) }.

Definition send (req : request) (st : St) : res response * St :=
  let '(r, w) := urlopen req (world st) in
  (r, mkSt w (log st ++ [(req, r)])).

(** [f"{v}"] and [print(v)] *)
Definition format (v : json) : string :=
  match v with
  | JStr s => s
  | _ => repr v
  end.

(** *** [__init__] *)

Definition JiraHelper_init : res JiraHelper :=
  let url := "https://jaxondigital.atlassian.net" in
  let email := "bgerby@jaxondigital.com" in
  content ← read_file "/Users/bgerby/.jira.d/.pass";
  let token := strip content in
  let auth_string := email +:+ ":" +:+ token in
  auth_b64 ← b64encode auth_string;
  Ok {| url := url; email := email; token := token; auth_b64 := auth_b64 |}.

(** *** [list_tickets] *)

Definition ticket_key_of (project : string) (ticket_id : Z) : string :=
  project +:+ "-" +:+ str_of_Z ticket_id.

(** One round of the enumeration loop, lines 32-56. *)
Definition try_ticket (self : JiraHelper) (project : string)
    (acc : gmap hkey (list ticket) * St) (ticket_id : Z)
    : gmap hkey (list ticket) * St :=
  let '(tickets_found, st) := acc in
  let ticket_key := ticket_key_of project ticket_id in
  let '(r, st') := send (issue_request self ticket_key) st in
  match resp ← r; data ← load_json resp; read_fields data with
  | Ok (summary, status, assignee_name) =>
      (store ticket_key summary status assignee_name tickets_found, st')
  | Raise _ => (tickets_found, st')          (* except: pass *)
  end.

Definition enumerate (self : JiraHelper) (project : string) (max_results : Z)
    (st : St) : gmap hkey (list ticket) * St :=
  foldl (try_ticket self project) (∅, st) (range_down max_results).

(** [lambda x: int(x['key'].split('-')[1])] *)
Definition sort_key (x : ticket) : res Z :=
  match split hyphen (key x) !! 1%nat with
  | Some part => py_int part
  | None => Raise IndexError
  end.

(** [sorted(group, key=..., reverse=True)]: the keys of all elements
    are computed first. *)
Definition sorted_reverse (group : list ticket) : res (list ticket) :=
  keys ← mapM sort_key group;
  Ok (snd <$> sort_desc (zip keys group)).

Definition section_header (status : string) (group : list ticket) : string :=
  newline +:+ "[" +:+ status +:+ "] ("
    +:+ str_of_Z (Z.of_nat (length group)) +:+ " tickets)".

Definition print_ticket (t : ticket) : W unit :=
  print ("  " +:+ key t +:+ ": " +:+ summary t);;
  if eq_str (assignee t) "Unassigned" then mret tt
  else print ("    → Assignee: " +:+ format (assignee t)).

Definition print_group (status : string) (group : list ticket) : W unit :=
  print (section_header status group);;
  print (repeat_char "-" 70);;
  sorted ← lift (sorted_reverse group);
  for_ sorted print_ticket.

(** The body of the loop over [status_order], lines 65-73. *)
Definition display_status (tickets_found : gmap hkey (list ticket))
    (status : string) : W unit :=
  match tickets_found !! KStr status with
  | Some group =>
      if bool_decide (status ∈ ["Done"; "Ready for Deploy"]) then mret tt
      else print_group status group
  | None => mret tt
  end.

(** Lines 59-73. *)
Definition display (project : string) (tickets_found : gmap hkey (list ticket))
    : W unit :=
  print (newline +:+ project +:+ " Tickets:");;
  print (repeat_char "=" 80);;
  for_ status_order (display_status tickets_found).

Definition list_tickets (self : JiraHelper) (project : string) (max_results : Z)
    (st : St) : W unit * St :=
  let '(tickets_found, st') := enumerate self project max_results st in
  (display project tickets_found, st').

(** *** [update_status] *)

(** Lines 88-92: the id of the first transition whose name matches, or
    [None]. *)
Fixpoint find_transition (new_status : string) (transitions : list json)
    : res json :=
  match transitions with
  | [] => Ok JNull
  | transition :: rest =>
      name ← getitem transition "name";
      match name with
      | JStr n =>
          if String.eqb (lower n) (lower new_status)
          then getitem transition "id"
          else find_transition new_status rest
      | _ => Raise AttributeError
      end
  end.

Definition not_available (new_status : string) : string :=
  "Status '" +:+ new_status +:+ "' not available".

Definition failed (e : exn) : string := "❌ Failed: " +:+ str_exn e.

Definition update_status (self : JiraHelper) (ticket_key new_status : string)
    (st : St) : list string * bool * St :=
  let '(r, st1) := send (transitions_request self ticket_key) st in
  match resp ← r; data ← load_json resp;
        transitions ← get data "transitions" (JArr []);
        l ← iterate transitions;
        find_transition new_status l with
  | Raise e => ([failed e], false, st1)
  | Ok transition_id =>
      if negb (truthy transition_id)
      then ([not_available new_status], false, st1)
      else
        let '(r2, st2) := send (transition_post self ticket_key transition_id) st1 in
        match r2 with
        | Ok _ =>
            (["✅ Updated " +:+ ticket_key +:+ " to " +:+ new_status], true, st2)
        | Raise e => ([failed e], false, st2)
        end
  end.

(** *** [get_ticket] *)

Definition is_dict (v : json) : bool :=
  match v with
  | JObj _ => true
  | _ => false
  end.

(** Lines 139-141. *)
Definition print_item (item : json) : W unit :=
  ty ← lift (get item "type" JNull);
  if eq_str ty "text"
  then text ← lift (get item "text" (JStr "")); print (format text)
  else mret tt.

(** Lines 138-141. *)
Definition print_block (block : json) : W unit :=
  ty ← lift (get block "type" JNull);
  if eq_str ty "paragraph"
  then content ← lift (get block "content" (JArr []));
       items ← lift (iterate content);
       for_ items print_item
  else mret tt.

(** Lines 135-141. *)
Definition print_description (description : json) : W unit :=
  if truthy description && is_dict description
  then print (newline +:+ "Description:");;
       content ← lift (get description "content" (JArr []));
       blocks ← lift (iterate content);
       for_ blocks print_block
  else mret tt.

(** Lines 124-143, the part of the [try] block after the fetch. *)
Definition show_ticket (ticket_key : string) (data : json) : W json :=
  fields ← lift (get data "fields" (JObj []));
  summary ← lift (get fields "summary" (JStr "No summary"));
  print (newline +:+ ticket_key +:+ ": " +:+ format summary);;
  status_obj ← lift (get fields "status" (JObj []));
  status ← lift (get status_obj "name" (JStr "Unknown"));
  print ("Status: " +:+ format status);;
  assignee ← lift (get fields "assignee" (JObj []));
  assignee_name ← lift (assignee_name_of assignee);
  print ("Assignee: " +:+ format assignee_name);;
  description ← lift (get fields "description" JNull);
  print_description description;;
  mret data.

Definition error_line (e : exn) : string := "Error: " +:+ str_exn e.

Definition get_ticket (self : JiraHelper) (ticket_key : string) (st : St)
    : list string * option json * St :=
  let '(r, st1) := send (issue_request self ticket_key) st in
  match resp ← r; load_json resp with
  | Raise e => ([error_line e], None, st1)
  | Ok data =>
      let w := show_ticket ticket_key data in
      match val w with
      | Ok d => (out w, Some d, st1)
      | Raise e => (out w ++ [error_line e], None, st1)
      end
  end.

(** *** The command line *)

Record outcome : Type := {
  stdout : list string;
  exit_code : Z;
  final : St
}.

Definition usage : list string :=
  ["Usage:";
   "  python3 jira_helper.py list [PROJECT]";
   "  python3 jira_helper.py get TICKET-KEY";
   "  python3 jira_helper.py status TICKET-KEY NEW-STATUS"].

(** The [__main__] block.  [sys.exit(1)] and an exception that nothing
    catches end the process with code 1 (the traceback goes to stderr);
    running off the end of the script ends it with code 0. *)
Definition main (argv : list string) (st : St) : outcome :=
  match JiraHelper_init with
  | Raise _ => {| stdout := []; exit_code := 1; final := st |}
  | Ok helper =>
      match argv with
      | [] | [_] => {| stdout := usage; exit_code := 1; final := st |}
      | _ :: command :: args =>
          if String.eqb command "list" then
            let project := match args with p :: _ => p | [] => "DXP" end in
            let '(w, st') := list_tickets helper project 30 st in
            {| stdout := out w;
               exit_code := match val w with Ok _ => 0 | Raise _ => 1 end;
               final := st' |}
          else if String.eqb command "get" then
            match args with
            | [] => {| stdout := ["Please specify ticket key (e.g., DXP-28)"];
                       exit_code := 1; final := st |}
            | ticket_key :: _ =>
                let '(o, _, st') := get_ticket helper ticket_key st in
                {| stdout := o; exit_code := 0; final := st' |}
            end
          else if String.eqb command "status" then
            match args with
            | ticket_key :: new_status :: _ =>
                let '(o, _, st') := update_status helper ticket_key new_status st in
                {| stdout := o; exit_code := 0; final := st' |}
            | _ => {| stdout :=
                        ["Usage: python3 jira_helper.py status TICKET-KEY NEW-STATUS"];
                      exit_code := 1; final := st |}
            end
          else {| stdout := []; exit_code := 0; final := st |}
      end
  end.

End Client.

(** ** A small concrete runtime

    Used to run the model on examples: a server that knows two tickets
    of project DXP, ASCII lower-casing, and decimal [int]. *)

Definition ascii_lower (c : ascii) : ascii :=
  let n := nat_of_ascii c in
  if ((65 <=? n) && (n <=? 90))%nat then ascii_of_nat (n + 32) else c.

Fixpoint demo_lower (s : string) : string :=
  match s with
  | EmptyString => EmptyString
  | String c s' => String (ascii_lower c) (demo_lower s')
  end.

Definition demo_int (s : string) : res Z :=
  match NilZero.int_of_string s with
  | Some d => Ok (Z.of_int d)
  | None => Raise ValueError
  end.

Definition demo_issue (summary status : string) (assignee : json) : json :=
  JObj [("key", JStr "DXP");
        ("fields", JObj [("summary", JStr summary);
                         ("status", JObj [("name", JStr status)]);
                         ("assignee", assignee)])].

Definition demo_base : string := "https://jaxondigital.atlassian.net/rest/api/3/issue/".

Definition demo_ticket1 : json := demo_issue "Set up project" "Done" JNull.

Definition demo_ticket2 : json :=
  demo_issue "Fix login bug" "In Progress" (JObj [("displayName", JStr "Ada")]).

Definition demo_ticket4 : json :=
  JObj [("fields", JObj [("summary", JStr "Write docs")])].

(** A document whose summary is [null], and a ticket of a project whose
    name has a hyphen. *)
Definition demo_ticket5 : json :=
  JObj [("fields", JObj [("summary", JNull);
                         ("status", JObj [("name", JStr "Client QA")])])].

Definition demo_ticket_ab : json := demo_issue "Rename" "In Progress" JNull.

Definition demo_transitions : json :=
  JObj [("transitions",
         JArr [JObj [("id", JStr "21"); ("name", JStr "Ready for QA")];
               JObj [("id", JStr "31"); ("name", JStr "Done")]])].

Definition demo_pages : list (string * json) :=
  [(demo_base +:+ "DXP-1", demo_ticket1);
   (demo_base +:+ "DXP-2", demo_ticket2);
   (demo_base +:+ "DXP-4", demo_ticket4);
   (demo_base +:+ "DXP-5", demo_ticket5);
   (demo_base +:+ "A-B-1", demo_ticket_ab);
   (demo_base +:+ "DXP-2/transitions", demo_transitions)].

Definition demo_urlopen (req : request) (w : unit) : res json * unit :=
  match req_method req with
  | POST => (Ok JNull, w)
  | GET =>
      match assoc (req_url req) demo_pages with
      | Some page => (Ok page, w)
      | None => (Raise (URLError "HTTP Error 404: Not Found"), w)
      end
  end.

Definition demo_str_exn (e : exn) : string :=
  match e with
  | URLError reason => reason
  | OSError reason => reason
  | KeyError k => "'" +:+ k +:+ "'"
  | _ => "error"
  end.

Definition demo_runtime : Runtime := {|
  World := unit;
  response := json;
  urlopen := demo_urlopen;
  load_json := Ok;
  read_file := λ _, Ok "secret";
  strip := λ s, s;
  b64encode := λ s, Ok s;
  lower := demo_lower;
  py_int := demo_int;
  repr := λ _, "?";
  str_exn := demo_str_exn
|}.

Definition demo_helper : JiraHelper := {|
  url := "https://jaxondigital.atlassian.net";
  email := "bgerby@jaxondigital.com";
  token := "secret";
  auth_b64 := "bgerby@jaxondigital.com:secret"
|}.

Definition demo_st : @St demo_runtime := @mkSt demo_runtime () [].

(** ** The printed text, line by line

    What the loops of [list_tickets] and [get_ticket] print, written as
    lists of lines, to state what the output is. *)

Section Rendering.
Context `{Runtime}.









End Rendering.

(** ** More concrete runtimes

    A server given by its pages, by what it answers to a POST and by
    what reading the credential file gives. *)

Definition pages_urlopen (pages : list (string * json)) (post : res json)
    (req : request) (w : unit) : res json * unit :=
  match req_method req with
  | POST => (post, w)
  | GET =>
      match assoc (req_url req) pages with
      | Some page => (Ok page, w)
      | None => (Raise (URLError "HTTP Error 404: Not Found"), w)
      end
  end.

Definition pages_runtime (pages : list (string * json)) (post : res json)
    (file : res string) : Runtime := {|
  World := unit;
  response := json;
  urlopen := pages_urlopen pages post;
  load_json := Ok;
  read_file := λ _, file;
  strip := λ s, s;
  b64encode := λ s, Ok s;
  lower := demo_lower;
  py_int := demo_int;
  repr := λ _, "?";
  str_exn := demo_str_exn
|}.

Definition demo_description : json :=
  JObj [("type", JStr "doc");
        ("content",
         JArr [JObj [("type", JStr "heading");
                     ("content", JArr [JObj [("type", JStr "text");
                                             ("text", JStr "Steps")]])];
               JObj [("type", JStr "paragraph");
                     ("content", JArr [JObj [("type", JStr "text");
                                             ("text", JStr "Fix login bug")];
                                       JObj [("type", JStr "hardBreak")]])]])].

Definition demo_ticket6 : json :=
  JObj [("fields", JObj [("summary", JStr "Login fails");
                         ("status", JObj [("name", JStr "Ready for QA")]);
                         ("assignee", JNull);
                         ("description", demo_description)])].

Definition demo_ticket7 : json :=
  JObj [("fields", JObj [("summary", JStr "No workflow"); ("status", JNull)])].

Definition demo_transitions6 : json :=
  JObj [("transitions",
         JArr [JObj [("id", JStr "11"); ("name", JStr "In Progress")];
               JObj [("id", JStr ""); ("name", JStr "Blocked")];
               JObj [("id", JStr "31"); ("name", JStr "Done")];
               JObj [("id", JStr "32"); ("name", JStr "DONE")]])].

Definition more_pages : list (string * json) :=
  [(demo_base +:+ "DXP-5", demo_ticket5);
   (demo_base +:+ "DXP-6", demo_ticket6);
   (demo_base +:+ "DXP-7", demo_ticket7);
   (demo_base +:+ "A-B-1", demo_ticket_ab);
   (demo_base +:+ "DXP-6/transitions", demo_transitions6)].

(** The server answers a POST. *)
Definition more_runtime : Runtime :=
  pages_runtime more_pages (Ok JNull) (Ok "secret").

(** The server refuses every POST. *)
Definition readonly_runtime : Runtime :=
  pages_runtime more_pages (Raise (URLError "HTTP Error 403: Forbidden"))
                (Ok "secret").

(** No page at all: every request raises. *)
Definition offline_runtime : Runtime :=
  pages_runtime [] (Raise (URLError "unreachable")) (Ok "secret").

(** The credential file is missing. *)
Definition locked_runtime : Runtime :=
  pages_runtime more_pages (Ok JNull) (Raise (OSError "No such file or directory")).

Definition more_st : @St more_runtime := @mkSt more_runtime () [].
Definition readonly_st : @St readonly_runtime := @mkSt readonly_runtime () [].
Definition offline_st : @St offline_runtime := @mkSt offline_runtime () [].
Definition locked_st : @St locked_runtime := @mkSt locked_runtime () [].

(** A project whose group holds several tickets, one of them with a
    summary of 74 characters, some of which take two or three bytes,
    and one with a summary of 25 arrows (75 bytes). *)
Definition board_long_summary : string :=
  "Connexion refusée → échec après la mise à jour du thème sombre côté client".

Definition board_cut_summary : string :=
  "Connexion refusée → échec après la mise à jour du thème somb".

Definition board_arrows : string := "→→→→→→→→→→→→→→→→→→→→→→→→→".

Definition board_ticket4 : json :=
  demo_issue board_long_summary "In Progress" (JObj [("displayName", JStr "Ada")]).

Definition board_ticket2 : json := demo_issue board_arrows "In Progress" JNull.

Definition board_ticket1 : json := demo_issue "Set up CI" "In Progress" JNull.

Definition board_pages : list (string * json) :=
  [(demo_base +:+ "WEB-4", board_ticket4);
   (demo_base +:+ "WEB-2", board_ticket2);
   (demo_base +:+ "WEB-1", board_ticket1)].

Definition board_runtime : Runtime :=
  pages_runtime board_pages (Ok JNull) (Ok "secret").

Definition board_st : @St board_runtime := @mkSt board_runtime () [].

Definition board_t4 : ticket :=
  {| key := "WEB-4"; summary := board_cut_summary +:+ "...";
     assignee := JStr "Ada" |}.

Definition board_t2 : ticket :=
  {| key := "WEB-2"; summary := board_arrows; assignee := JStr "Unassigned" |}.

Definition board_t1 : ticket :=
  {| key := "WEB-1"; summary := "Set up CI"; assignee := JStr "Unassigned" |}.

(** * Properties *)

(** ** The model on examples *)

Example split_key : split hyphen "DXP-28" = ["DXP"; "28"].
Proof. reflexivity. Qed.

Example split_trailing : split hyphen "A-" = ["A"; ""].
Proof. reflexivity. Qed.

Example str_of_Z_30 : str_of_Z 30 = "30".
Proof. reflexivity. Qed.

Example range_down_3 : range_down 3 = [3; 2; 1].
Proof. reflexivity. Qed.

Example range_down_neg : range_down (-2) = [].
Proof. reflexivity. Qed.

Example sort_desc_stable :
  sort_desc [(1, "a"); (3, "b"); (1, "c"); (3, "d")]
  = [(3, "b"); (3, "d"); (1, "a"); (1, "c")].
Proof. reflexivity. Qed.

Example init_demo : @JiraHelper_init demo_runtime = Ok demo_helper.
Proof. reflexivity. Qed.

Example list_demo :
  out (@list_tickets demo_runtime demo_helper "DXP" 3 demo_st).1
  = [newline +:+ "DXP Tickets:";
     repeat_char "=" 80;
     newline +:+ "[In Progress] (1 tickets)";
     repeat_char "-" 70;
     "  DXP-2: Fix login bug";
     "    → Assignee: Ada"].
Proof. vm_compute. reflexivity. Qed.

(** DXP-4 has no status and is not shown; DXP-5 has no usable summary
    and leaves an empty group behind. *)
Example list_demo_5 :
  (@list_tickets demo_runtime demo_helper "DXP" 5 demo_st).1
  = mkW [newline +:+ "DXP Tickets:";
         repeat_char "=" 80;
         newline +:+ "[In Progress] (1 tickets)";
         repeat_char "-" 70;
         "  DXP-2: Fix login bug";
         "    → Assignee: Ada";
         newline +:+ "[Client QA] (0 tickets)";
         repeat_char "-" 70]
        (Ok tt).
Proof. vm_compute. reflexivity. Qed.

(** With the project "A-B" the sort reads "B" as the number. *)
Example list_demo_hyphen :
  (@list_tickets demo_runtime demo_helper "A-B" 1 demo_st).1
  = mkW [newline +:+ "A-B Tickets:";
         repeat_char "=" 80;
         newline +:+ "[In Progress] (1 tickets)";
         repeat_char "-" 70]
        (Raise ValueError).
Proof. vm_compute. reflexivity. Qed.

Example get_demo :
  (@get_ticket demo_runtime demo_helper "DXP-1" demo_st).1.1
  = [newline +:+ "DXP-1: Set up project"; "Status: Done"; "Assignee: Unassigned"].
Proof. vm_compute. reflexivity. Qed.

Example status_demo :
  (@update_status demo_runtime demo_helper "DXP-2" "done" demo_st).1
  = (["✅ Updated DXP-2 to done"], true).
Proof. vm_compute. reflexivity. Qed.

Example status_demo_rejected :
  (@update_status demo_runtime demo_helper "DXP-2" "Blocked" demo_st).1
  = (["Status 'Blocked' not available"], false).
Proof. vm_compute. reflexivity. Qed.

Example main_demo_list_exit :
  exit_code (@main demo_runtime ["jira_helper.py"; "list"; "A-B"] demo_st) = 1.
Proof. vm_compute. reflexivity. Qed.

Example main_demo_no_args :
  @main demo_runtime ["jira_helper.py"] demo_st
  = {| stdout := usage; exit_code := 1; final := demo_st |}.
Proof. vm_compute. reflexivity. Qed.

(** Characters, not bytes. *)
Example arrows_len :
  py_len board_arrows = 25%nat ∧ String.length board_arrows = 75%nat.
Proof. split; reflexivity. Qed.

Example arrows_utf8 : utf8 [8594%N; 233%N; 65%N] = "→éA".
Proof. reflexivity. Qed.

Example arrows_chars : chars "a→b" = ["a"; "→"; "b"].
Proof. reflexivity. Qed.

Example shorten_arrows : shorten (JStr board_arrows) = Ok board_arrows.
Proof. reflexivity. Qed.

Example shorten_long :
  py_len board_long_summary = 74%nat ∧
  shorten (JStr board_long_summary) = Ok (board_cut_summary +:+ "...") ∧
  py_len board_cut_summary = 60%nat.
Proof. repeat split; reflexivity. Qed.

Example list_board :
  (@list_tickets board_runtime demo_helper "WEB" 4 board_st).1
  = mkW [newline +:+ "WEB Tickets:";
         repeat_char "=" 80;
         newline +:+ "[In Progress] (3 tickets)";
         repeat_char "-" 70;
         "  WEB-4: " +:+ board_cut_summary +:+ "...";
         "    → Assignee: Ada";
         "  WEB-2: " +:+ board_arrows;
         "  WEB-1: Set up CI"]
        (Ok tt).
Proof. vm_compute. reflexivity. Qed.

(** ** Strings *)

Lemma append_cons (c : ascii) (s t : string) :
  String c s +:+ t = String c (s +:+ t).
Proof. reflexivity. Qed.


(** *** Characters *)


Lemma py_len_take (n : nat) (s : string) : (py_len (py_take n s) ≤ n)%nat.
Proof.
  revert n. induction s as [|c s IH]; intros n; simpl; [lia|].
  destruct (is_continuation c) eqn:Hc; simpl.
  - rewrite Hc. apply IH.
  - destruct n as [|n]; simpl; [lia|]. rewrite Hc. specialize (IH n). lia.
Qed.

Lemma py_len_append (s t : string) :
  py_len (s +:+ t) = (py_len s + py_len t)%nat.
Proof.
  induction s as [|c s IH]; [done|]. rewrite append_cons. simpl.
  destruct (is_continuation c); by rewrite IH.
Qed.







Lemma append_inv_head (p a b : string) : p +:+ a = p +:+ b → a = b.
Proof.
  induction p as [|c p IH]; [done|].
  rewrite !append_cons. intros [= Heq]. by apply IH.
Qed.

Lemma str_of_Z_inj (z z' : Z) : str_of_Z z = str_of_Z z' → z = z'.
Proof.
  assert (Hnil : ∀ x, Z.to_int x ≠ Decimal.Pos Decimal.Nil ∧
                      Z.to_int x ≠ Decimal.Neg Decimal.Nil).
  { intros [|p|p]; split; try done; simpl; intros [= Hp];
      by apply (DecimalPos.Unsigned.to_uint_nonnil p). }
  unfold str_of_Z. intros Heq. apply DecimalZ.to_int_inj.
  apply (f_equal NilZero.int_of_string) in Heq.
  rewrite !NilZero.isi in Heq by apply Hnil. by injection Heq.
Qed.

Lemma split_nonempty (sep : ascii) (s : string) : split sep s ≠ [].
Proof.
  induction s as [|c s IH]; simpl; [done|].
  destruct (Ascii.eqb c sep); [done|].
  by destruct (split sep s).
Qed.

(** [(p + sep + x).split(sep) == p.split(sep) + x.split(sep)] *)
Lemma split_join (sep : ascii) (p x : string) :
  split sep (p +:+ String sep x) = split sep p ++ split sep x.
Proof.
  induction p as [|c p IH]; [simpl; by rewrite Ascii.eqb_refl|].
  rewrite append_cons. simpl.
  - destruct (Ascii.eqb c sep); [by rewrite IH|].
    rewrite IH. pose proof (split_nonempty sep p).
    by destruct (split sep p).
Qed.

Lemma split_uint (d : Decimal.uint) :
  split hyphen (NilEmpty.string_of_uint d) = [NilEmpty.string_of_uint d].
Proof. induction d; simpl; [done|by rewrite IHd..]. Qed.

Lemma split_str_of_Z (z : Z) : 0 ≤ z → split hyphen (str_of_Z z) = [str_of_Z z].
Proof.
  intros Hz. unfold str_of_Z. destruct z as [|p|p]; [done| |lia].
  simpl. unfold NilZero.string_of_uint.
  destruct (Pos.to_uint p); try apply split_uint. done.
Qed.

(** ** Sorting *)

Lemma sort_desc_sorted {A} (l : list (Z * A)) :
  StronglySorted (λ x y, y.1 ≤ x.1) l → sort_desc l = l.
Proof.
  induction 1 as [|x l Hl IH Hx]; [done|].
  unfold sort_desc in *. simpl. rewrite IH.
  destruct Hx as [|y l' Hy _]; [done|]. simpl.
  destruct (Z.ltb_spec x.1 y.1); [lia|done].
Qed.


Lemma sort_desc_is_sorted {A} (l : list (Z * A)) :
  Sorted (λ x y, y.1 ≤ x.1) (sort_desc l).
Proof.
  assert (Hins : ∀ (x : Z * A) k,
    Sorted (λ x y, y.1 ≤ x.1) k → Sorted (λ x y, y.1 ≤ x.1) (insert_desc x k)).
  { intros x k Hk. induction Hk as [|y k Hk IH Hy]; simpl.
    - by repeat constructor.
    - destruct (Z.ltb_spec x.1 y.1).
      + constructor; [done|].
        destruct Hy as [|z k' Hz]; simpl.
        * constructor. lia.
        * destruct (Z.ltb_spec x.1 z.1); constructor; lia.
      + constructor; [by constructor|]. constructor. lia. }
  induction l as [|x l IH]; [constructor|].
  unfold sort_desc in *. simpl. by apply Hins.
Qed.

(** Stability: the elements of one key stay in their order. *)
Lemma sort_desc_keeps_order {A} (c : Z) (l : list (Z * A)) :
  filter (λ x, x.1 = c) (sort_desc l) = filter (λ x, x.1 = c) l.
Proof.
  assert (Hins : ∀ (x : Z * A) k,
    filter (λ y, y.1 = c) (insert_desc x k) = filter (λ y, y.1 = c) (x :: k)).
  { intros x k. induction k as [|y k IH]; simpl; [done|].
    destruct (Z.ltb_spec x.1 y.1); [|done].
    rewrite filter_cons, IH, !filter_cons.
    destruct (decide (y.1 = c)), (decide (x.1 = c)); try done. lia. }
  induction l as [|x l IH]; [done|].
  unfold sort_desc in *. simpl. rewrite Hins, !filter_cons.
  by rewrite IH.
Qed.

Lemma zip_keys_sorted {A} (ks : list Z) (l : list A) :
  StronglySorted (λ a b, b ≤ a) ks →
  StronglySorted (λ x y : Z * A, y.1 ≤ x.1) (zip ks l).
Proof.
  intros Hks. revert l.
  induction Hks as [|k ks Hks IH Hk]; intros [|a l]; simpl; try constructor.
  - apply IH.
  - rewrite Forall_forall in Hk. apply Forall_forall. intros [k' a'] Hin.
    simpl. apply Hk. apply (elem_of_zip_l _ _ _ _ Hin).
Qed.

Lemma mapM_res_Ok {A B} (f : A → res B) (l : list A) (k : list B) :
  Forall2 (λ x y, f x = Ok y) l k → mapM f l = Ok k.
Proof.
  induction 1 as [|x y l k Hxy _ IH]; [done|].
  simpl. rewrite Hxy. simpl. rewrite IH. done.
Qed.

Lemma StronglySorted_weaken {A} (R S : A → A → Prop) (l : list A) :
  (∀ x y, R x y → S x y) → StronglySorted R l → StronglySorted S l.
Proof.
  intros HRS. induction 1 as [|x l _ IH Hx]; constructor; [done|].
  eapply Forall_impl; [done|]. auto.
Qed.

Lemma StronglySorted_const {A} (c : Z) (l : list A) :
  StronglySorted (λ a b : Z, b ≤ a) ((λ _, c) <$> l).
Proof.
  induction l as [|x l IH]; simpl; constructor; [done|].
  apply Forall_fmap, Forall_true. simpl. lia.
Qed.

(** ** Printing *)

Lemma for_ext {A} (f g : A → W unit) (l : list A) :
  Forall (λ x, f x = g x) l → for_ l f = for_ l g.
Proof.
  induction 1 as [|x l Hx _ IH]; [done|].
  simpl. by rewrite Hx, IH.
Qed.

Lemma lift_bind {A B} (a : A) (f : A → W B) : lift (Ok a) ≫= f = f a.
Proof. unfold lift, mbind, W_bind. simpl. by destruct (f a). Qed.




Lemma print_bind {B} (s : string) (w : W B) :
  (print s;; w) = mkW (s :: out w) (val w).
Proof. done. Qed.

(** Closes [x ∉ l] and [x ∈ l → False] for a literal list [l] whose
    elements all differ from [x] by their constructors. *)
Ltac not_listed :=
  let Hin := fresh "Hin" in
  intros Hin;
  repeat (apply elem_of_cons in Hin as [Hin|Hin]; [discriminate|]);
  by apply elem_of_nil in Hin.

(** ** [list_tickets] *)

Section ListTickets.
Context `{Runtime}.

Lemma display_status_skipped found status :
  status ∈ ["Done"; "Ready for Deploy"] → display_status found status = mret tt.
Proof.
  intros Hin. unfold display_status.
  destruct (found !! KStr status); [|done].
  by rewrite bool_decide_eq_true_2.
Qed.

Lemma display_status_agree found1 found2 status :
  found1 !! KStr status = found2 !! KStr status →
  display_status found1 status = display_status found2 status.
Proof. unfold display_status. by intros ->. Qed.

(** The display reads only the groups of the five statuses that are in
    [status_order] and not skipped. *)
Lemma display_agree project found1 found2 :
  (∀ status, status ∈ status_order → status ∉ ["Done"; "Ready for Deploy"] →
             found1 !! KStr status = found2 !! KStr status) →
  display project found1 = display project found2.
Proof.
  intros Hagree. unfold display.
  assert (for_ status_order (display_status found1)
          = for_ status_order (display_status found2)) as ->; [|done].
  apply for_ext, Forall_forall. intros status Hin.
  destruct (decide (status ∈ ["Done"; "Ready for Deploy"])) as [Hs|Hs].
  - by rewrite !display_status_skipped.
  - by apply display_status_agree, Hagree.
Qed.

Lemma store_other ticket_key summary status assignee_name found k k' :
  hash_key status = Ok k → k' ≠ k →
  store ticket_key summary status assignee_name found !! k' = found !! k'.
Proof.
  intros Hk Hne. unfold store. rewrite Hk.
  assert (Hf1 : (match found !! k with
                 | Some _ => found
                 | None => <[k:=[]]> found
                 end) !! k' = found !! k').
  { destruct (found !! k); [done|]. by rewrite lookup_insert_ne. }
  destruct (shorten summary); [|done].
  by rewrite lookup_insert_ne.
Qed.

Lemma store_unhashable ticket_key summary status assignee_name found e :
  hash_key status = Raise e →
  store ticket_key summary status assignee_name found = found.
Proof. intros Hk. unfold store. by rewrite Hk. Qed.

Lemma store_lookup ticket_key summary status assignee_name found k g :
  store ticket_key summary status assignee_name found !! k = Some g →
  g = default [] (found !! k) ∨
  hash_key status = Ok k ∧
  ∃ s, summary = JStr s ∧
       g = default [] (found !! k)
           ++ [{| key := ticket_key;
                  summary := py_take 60 s
                     +:+ (if (60 <? py_len s)%nat then "..." else "");
                  assignee := assignee_name |}].
Proof.
  destruct (hash_key status) as [k0|e] eqn:Hk.
  2:{ rewrite (store_unhashable _ _ _ _ _ e Hk). intros ->. by left. }
  destruct (decide (k = k0)) as [->|Hne].
  2:{ rewrite (store_other _ _ _ _ _ k0 k Hk Hne). intros ->. by left. }
  unfold store. rewrite Hk.
  destruct summary as [| | |s| |]; simpl;
    try (destruct (found !! k0) eqn:Hf; [rewrite Hf|rewrite lookup_insert_eq];
         intros [= <-]; by left).
  rewrite lookup_insert_eq. intros [= <-]. right. split; [done|].
  exists s. split; [done|].
  destruct (found !! k0) eqn:Hf; [by rewrite Hf|by rewrite lookup_insert_eq].
Qed.

Lemma store_appends ticket_key s status assignee_name found k :
  hash_key status = Ok k →
  store ticket_key (JStr s) status assignee_name found !! k
  = Some (default [] (found !! k)
          ++ [{| key := ticket_key;
                 summary := py_take 60 s
                    +:+ (if (60 <? py_len s)%nat then "..." else "");
                 assignee := assignee_name |}]).
Proof.
  intros Hk. unfold store. rewrite Hk. simpl. rewrite lookup_insert_eq.
  destruct (found !! k) eqn:Hf; [by rewrite Hf|by rewrite lookup_insert_eq].
Qed.


(** One round either leaves the dict alone or files the ticket that
    was read from the response. *)
Lemma try_ticket_cases self project found st ticket_id :
  let ticket_key := ticket_key_of project ticket_id in
  (try_ticket self project (found, st) ticket_id).2
    = (send (issue_request self ticket_key) st).2 ∧
  ((try_ticket self project (found, st) ticket_id).1 = found ∨
   ∃ resp data summary status assignee_name,
     (send (issue_request self ticket_key) st).1 = Ok resp ∧
     load_json resp = Ok data ∧
     read_fields data = Ok (summary, status, assignee_name) ∧
     (try_ticket self project (found, st) ticket_id).1
       = store ticket_key summary status assignee_name found).
Proof.
  intros ticket_key. unfold try_ticket. fold ticket_key.
  destruct (send (issue_request self ticket_key) st) as [r st'].
  destruct r as [resp|e]; simpl; [|by split; [|left]].
  destruct (load_json resp) as [data|e] eqn:Hd; simpl; [|by split; [|left]].
  destruct (read_fields data) as [[[sm sn] an]|e] eqn:Hr; simpl;
    [|by split; [|left]].
  split; [done|]. right. by exists resp, data, sm, sn, an.
Qed.


Lemma print_group_sorted status group :
  sorted_reverse group = Ok group →
  print_group status group
  = (print (section_header status group);;
     print (repeat_char "-" 70);;
     for_ group print_ticket).
Proof. intros Hs. unfold print_group. by rewrite Hs, lift_bind. Qed.

Lemma print_group_raises status group e :
  sorted_reverse group = Raise e →
  print_group status group
  = mkW [section_header status group; repeat_char "-" 70] (Raise e).
Proof. intros Hs. unfold print_group. by rewrite Hs. Qed.

Lemma send_log req st :
  log (send req st).2 = log st ++ [(req, (send req st).1)].
Proof. unfold send. by destruct (urlopen req (world st)). Qed.

(** Where a ticket [t] of the group [k] comes from: one of the
    [exchanges] answered the request for its key with a document that
    reads with a str summary and a status hashed to [k]. *)
Local Abbreviation fetched self project exchanges k t :=
  (∃ ticket_id resp data s status assignee_name,
     (issue_request self (ticket_key_of project ticket_id), Ok resp) ∈ exchanges ∧
     load_json resp = Ok data ∧
     read_fields data = Ok (JStr s, status, assignee_name) ∧
     hash_key status = Ok k ∧
     t = {| key := ticket_key_of project ticket_id;
            summary := py_take 60 s
               +:+ (if (60 <? py_len s)%nat then "..." else "");
            assignee := assignee_name |}).

Lemma try_ticket_provenance self project found st ticket_id exchanges :
  (∀ k g t, found !! k = Some g → t ∈ g → fetched self project exchanges k t) →
  ∀ k g t,
    (try_ticket self project (found, st) ticket_id).1 !! k = Some g → t ∈ g →
    fetched self project
      (exchanges ++ [(issue_request self (ticket_key_of project ticket_id),
                      (send (issue_request self (ticket_key_of project ticket_id)) st).1)])
      k t.
Proof.
  intros Hinv k g t Hg Ht.
  assert (Hold : ∀ t', t' ∈ default [] (found !! k) →
                       fetched self project exchanges k t').
  { intros t' Ht'. destruct (found !! k) as [g0|] eqn:Hf; simpl in Ht'.
    - by apply (Hinv k g0).
    - by apply elem_of_nil in Ht'. }
  assert (Hmono : ∀ x t', fetched self project exchanges k t' →
                          fetched self project (exchanges ++ [x]) k t').
  { intros x t' (i & resp & data & s & sn & an & Hin & Hrest).
    exists i, resp, data, s, sn, an. split; [|done].
    apply elem_of_app. by left. }
  destruct (try_ticket_cases self project found st ticket_id) as [_ Hcases].
  destruct Hcases as [Hsame|(resp & data & sm & sn & an & Hr & Hd & Hf & Hst)].
  { rewrite Hsame in Hg. rewrite Hg in Hold. by apply Hmono, Hold. }
  rewrite Hst in Hg. apply store_lookup in Hg.
  destruct Hg as [->|(Hk & s & -> & ->)]; [by apply Hmono, Hold|].
  apply elem_of_app in Ht as [Ht|Ht]; [by apply Hmono, Hold|].
  apply list_elem_of_singleton in Ht as ->.
  exists ticket_id, resp, data, s, sn, an. split_and!; try done.
  rewrite Hr. apply elem_of_app. right. by apply list_elem_of_singleton.
Qed.

Lemma foldl_provenance self project l :
  ∀ found st (st0 : St) exchanges,
    log st = log st0 ++ exchanges →
    (∀ k g t, found !! k = Some g → t ∈ g → fetched self project exchanges k t) →
    ∃ exchanges',
      log (foldl (try_ticket self project) (found, st) l).2 = log st0 ++ exchanges' ∧
      ∀ k g t, (foldl (try_ticket self project) (found, st) l).1 !! k = Some g →
               t ∈ g → fetched self project exchanges' k t.
Proof.
  induction l as [|x l IH]; intros found st st0 exchanges Hlog Hinv.
  - by exists exchanges.
  - change (foldl (try_ticket self project) (found, st) (x :: l))
      with (foldl (try_ticket self project)
              (try_ticket self project (found, st) x) l).
    pose proof (try_ticket_provenance self project found st x exchanges Hinv) as Hstep.
    destruct (try_ticket_cases self project found st x) as [Hst _].
    destruct (try_ticket self project (found, st) x) as [found' st'].
    simpl in Hst, Hstep.
    eapply (IH found' st' st0); [|exact Hstep].
    rewrite Hst, send_log, Hlog. by rewrite <- (assoc_L (++)).
Qed.

(** Every ticket in the dict was fetched in this run, under the status
    of its group, and holds the shortened summary of what was fetched. *)
Lemma enumerate_provenance self project max_results st :
  ∃ exchanges,
    log (enumerate self project max_results st).2 = log st ++ exchanges ∧
    ∀ k g t, (enumerate self project max_results st).1 !! k = Some g → t ∈ g →
             fetched self project exchanges k t.
Proof.
  apply (foldl_provenance self project (range_down max_results) ∅ st st []).
  - by rewrite app_nil_r.
  - intros k g t Hg. by rewrite lookup_empty in Hg.
Qed.


Lemma hash_key_inj v v' k :
  hash_key v = Ok k → hash_key v' = Ok k → (∃ s, v' = JStr s) → v = v'.
Proof.
  intros Hv Hv' [s ->]. simpl in Hv'. injection Hv' as <-.
  destruct v as [|[]| | | |]; by simplify_eq/=.
Qed.

(** C3: a ticket whose status is "Done" or "Ready for Deploy" is filed
    under that status only; the display is the same whatever the group
    of that status holds; the output of [list_tickets] is the display
    of the tickets found with that group taken out; and every ticket
    left after taking it out was fetched with another status. *)
Theorem completed_never_listed self project max_results st status :
  status ∈ ["Done"; "Ready for Deploy"] →
  (∀ ticket_key sm an found k,
     k ≠ KStr status →
     store ticket_key sm (JStr status) an found !! k = found !! k) ∧
  (∀ found group,
     display project (<[KStr status := group]> found)
     = display project (delete (KStr status) found)) ∧
  (list_tickets self project max_results st).1
  = display project (delete (KStr status) (enumerate self project max_results st).1) ∧
  (∀ k g t,
     delete (KStr status) (enumerate self project max_results st).1 !! k = Some g →
     t ∈ g →
     ∃ exchanges ticket_id resp data summary status' assignee_name,
       log (enumerate self project max_results st).2 = log st ++ exchanges ∧
       (issue_request self (ticket_key_of project ticket_id), Ok resp) ∈ exchanges ∧
       load_json resp = Ok data ∧
       read_fields data = Ok (summary, status', assignee_name) ∧
       status' ≠ JStr status ∧
       key t = ticket_key_of project ticket_id).
Proof.
  intros Hs. split_and!.
  - intros tk sm an found k Hk. by apply store_other with (k := KStr status).
  - intros found group. apply display_agree. intros s _ Hns.
    assert (KStr status ≠ KStr s) by (intros [= <-]; done).
    by rewrite lookup_insert_ne, lookup_delete_ne.
  - unfold list_tickets.
    destruct (enumerate self project max_results st) as [found st']. simpl.
    apply display_agree. intros s _ Hns.
    assert (KStr status ≠ KStr s) by (intros [= <-]; done).
    by rewrite lookup_delete_ne.
  - intros k g t [Hk Hg]%lookup_delete_Some Ht.
    destruct (enumerate_provenance self project max_results st)
      as (exchanges & Hlog & Hprov).
    destruct (Hprov _ _ _ Hg Ht)
      as (i & resp & data & s & sn & an & Hin & Hd & Hf & Hh & ->).
    exists exchanges, i, resp, data, (JStr s), sn, an. split_and!; try done.
    intros ->. simpl in Hh. by injection Hh as <-.
Qed.

(** C4: a ticket whose status name is none of the seven names of
    [status_order] changes no group of a listed status; the display is
    the same whatever the group of that name holds; the output of
    [list_tickets] is the display of the groups of the listed statuses
    alone; and every ticket of those groups was fetched with a listed
    status name. *)
Theorem unlisted_status_never_listed self project max_results st name :
  name ∉ (JStr <$> status_order) →
  (∀ ticket_key sm an found status,
     status ∈ status_order →
     store ticket_key sm name an found !! KStr status = found !! KStr status) ∧
  (∀ k found group,
     hash_key name = Ok k →
     display project (<[k := group]> found) = display project (delete k found)) ∧
  (list_tickets self project max_results st).1
  = display project
      (filter (λ kv, kv.1 ∈ (KStr <$> status_order))
              (enumerate self project max_results st).1) ∧
  (∀ k g t,
     filter (λ kv, kv.1 ∈ (KStr <$> status_order))
            (enumerate self project max_results st).1 !! k = Some g →
     t ∈ g →
     ∃ exchanges ticket_id resp data summary status' assignee_name,
       log (enumerate self project max_results st).2 = log st ++ exchanges ∧
       (issue_request self (ticket_key_of project ticket_id), Ok resp) ∈ exchanges ∧
       load_json resp = Ok data ∧
       read_fields data = Ok (summary, status', assignee_name) ∧
       status' ∈ (JStr <$> status_order) ∧
       status' ≠ name ∧
       key t = ticket_key_of project ticket_id).
Proof.
  intros Hname.
  assert (Hkey : ∀ k status, hash_key name = Ok k → status ∈ status_order →
                             KStr status ≠ k).
  { intros k status Hk Hin <-. apply Hname.
    assert (name = JStr status) as ->
      by (apply (hash_key_inj _ _ (KStr status)); [done|done|by eexists]).
    by apply list_elem_of_fmap_2. }
  split_and!.
  - intros tk sm an found status Hin.
    destruct (hash_key name) as [k|e] eqn:Hk.
    + apply store_other with (k := k); [done|]. by apply Hkey.
    + by rewrite (store_unhashable _ _ _ _ _ e).
  - intros k found group Hk. apply display_agree. intros s Hin _.
    assert (k ≠ KStr s) by (intros ->; by eapply Hkey).
    by rewrite lookup_insert_ne, lookup_delete_ne.
  - unfold list_tickets.
    destruct (enumerate self project max_results st) as [found st']. simpl.
    apply display_agree. intros s Hin _.
    apply option_eq. intros g. rewrite map_lookup_filter_Some.
    split; [|by intros [? _]].
    intros Hg. split; [done|].
    change (KStr s ∈ KStr <$> status_order). by apply list_elem_of_fmap_2.
  - intros k g t [Hg Hk]%map_lookup_filter_Some Ht.
    change (k ∈ KStr <$> status_order) in Hk.
    apply list_elem_of_fmap in Hk as (status & -> & Hin).
    destruct (enumerate_provenance self project max_results st)
      as (exchanges & Hlog & Hprov).
    destruct (Hprov _ _ _ Hg Ht)
      as (i & resp & data & s & sn & an & Hex & Hd & Hf & Hh & ->).
    assert (sn = JStr status) as ->.
    { apply (hash_key_inj _ _ (KStr status)); [done|done|by eexists]. }
    exists exchanges, i, resp, data, (JStr s), (JStr status), an.
    split_and!; try done.
    + by apply list_elem_of_fmap_2.
    + intros <-. apply Hname. by apply list_elem_of_fmap_2.
Qed.

(** *** The groups built by the enumeration *)

Lemma range_down_sorted max_results :
  StronglySorted Z.gt (range_down max_results) ∧
  Forall (λ x, 0 < x ≤ max_results) (range_down max_results).
Proof.
  unfold range_down.
  assert (Hgen : ∀ n a,
    StronglySorted Z.gt ((λ i, max_results - Z.of_nat i) <$> seq a n)).
  { induction n as [|n IH]; intros a; simpl; constructor; [apply IH|].
    apply Forall_fmap, Forall_forall. intros i Hi.
    apply elem_of_seq in Hi. simpl. lia. }
  split; [apply Hgen|].
  apply Forall_fmap, Forall_forall. intros i Hi.
  apply elem_of_seq in Hi. simpl. lia.
Qed.

Local Abbreviation groups_above project lo found :=
  (∀ k g, found !! k = Some g →
     ∃ ids, key <$> g = ticket_key_of project <$> ids ∧
            StronglySorted Z.gt ids ∧ Forall (λ i, lo < i) ids).

Lemma try_ticket_groups self project found st x lo :
  groups_above project lo found → x ≤ lo →
  groups_above project (x - 1) (try_ticket self project (found, st) x).1.
Proof.
  intros Hinv Hx k g Hg.
  assert (Hold : ∃ ids, key <$> default [] (found !! k) = ticket_key_of project <$> ids
                        ∧ StronglySorted Z.gt ids ∧ Forall (λ i, lo < i) ids).
  { destruct (found !! k) as [g0|] eqn:Hf; [by apply (Hinv k g0)|].
    exists []. by repeat constructor. }
  destruct Hold as (ids & Hkeys & Hsorted & Hlo).
  destruct (try_ticket_cases self project found st x) as [_ Hcases].
  assert (Hweak : Forall (λ i, x - 1 < i) ids).
  { eapply Forall_impl; [done|]. simpl. lia. }
  destruct Hcases as [Hsame|(resp & data & sm & sn & an & _ & _ & _ & Hst)].
  { rewrite Hsame in Hg. rewrite Hg in Hkeys. by exists ids. }
  rewrite Hst in Hg. apply store_lookup in Hg.
  destruct Hg as [->|(_ & s & _ & ->)]; [by exists ids|].
  exists (ids ++ [x]). split_and!.
  - rewrite !fmap_app, Hkeys. done.
  - apply StronglySorted_app. split_and!; [|done|by repeat constructor].
    intros i j Hi Hj. apply list_elem_of_singleton in Hj as ->.
    rewrite Forall_forall in Hlo. specialize (Hlo i Hi). lia.
  - apply Forall_app. split; [done|]. repeat constructor. lia.
Qed.

Lemma foldl_try_ticket_groups self project l :
  ∀ lo found st,
    StronglySorted Z.gt l → Forall (λ x, 0 < x ≤ lo) l →
    0 ≤ lo → groups_above project lo found →
    groups_above project 0 (foldl (try_ticket self project) (found, st) l).1.
Proof.
  induction l as [|x l IH]; intros lo found st Hsorted Hle Hlo Hinv.
  - simpl. intros k g Hg. destruct (Hinv k g Hg) as (ids & ? & ? & Hids).
    exists ids. split_and!; [done..|].
    eapply Forall_impl; [done|]. simpl. lia.
  - apply StronglySorted_cons in Hsorted as [Hx Hsorted].
    apply Forall_cons in Hle as [Hxlo Hle].
    pose proof (try_ticket_groups self project found st x lo Hinv) as Hstep.
    change (foldl (try_ticket self project) (found, st) (x :: l))
      with (foldl (try_ticket self project)
              (try_ticket self project (found, st) x) l).
    destruct (try_ticket self project (found, st) x) as [found' st'].
    apply (IH (x - 1)); [done| |lia|apply Hstep; lia].
    rewrite Forall_forall in Hx, Hle. apply Forall_forall. intros y Hy.
    specialize (Hx y Hy). specialize (Hle y Hy). lia.
Qed.

(** Every group holds the tickets of strictly descending ticket
    numbers, in that order. *)
Lemma enumerate_groups self project max_results st k g :
  (enumerate self project max_results st).1 !! k = Some g →
  ∃ ids, key <$> g = ticket_key_of project <$> ids ∧
         StronglySorted Z.gt ids ∧ Forall (λ i, 0 < i) ids.
Proof.
  destruct (range_down_sorted max_results) as [Hsorted Hrange].
  apply (foldl_try_ticket_groups self project (range_down max_results)
           (Z.max 0 max_results) ∅ st); [done| |lia|].
  - eapply Forall_impl; [done|]. simpl. lia.
  - intros k' g' Hg'. by rewrite lookup_empty in Hg'.
Qed.

(** *** The order within a group *)

Hypothesis py_int_str : ∀ z, 0 < z → py_int (str_of_Z z) = Ok z.

Lemma sort_key_ticket project ticket_id t :
  0 < ticket_id → key t = ticket_key_of project ticket_id →
  sort_key t = match split hyphen project with
               | _ :: part :: _ => py_int part
               | _ => Ok ticket_id
               end.
Proof.
  intros Hid Hkey. unfold sort_key. rewrite Hkey. unfold ticket_key_of.
  change ("-" +:+ str_of_Z ticket_id) with (String hyphen (str_of_Z ticket_id)).
  rewrite split_join, split_str_of_Z by lia.
  pose proof (split_nonempty hyphen project) as Hne.
  destruct (split hyphen project) as [|p [|part rest]]; [done| |done].
  simpl. by apply py_int_str.
Qed.

Lemma sorted_reverse_group project group ids :
  key <$> group = ticket_key_of project <$> ids →
  StronglySorted Z.gt ids → Forall (λ i, 0 < i) ids →
  sorted_reverse group = Ok group ∨ ∃ e, sorted_reverse group = Raise e.
Proof.
  intros Hkeys Hsorted Hpos.
  assert (Hshape : Forall2 (λ t i, key t = ticket_key_of project i ∧ 0 < i) group ids).
  { assert (Forall2 (λ t i, key t = ticket_key_of project i) group ids) as Hk.
    { apply Forall2_fmap. rewrite Hkeys. by apply Forall_Forall2_diag, Forall_true. }
    clear Hkeys Hsorted. induction Hk; [constructor|].
    apply Forall_cons in Hpos as [? ?]. constructor; auto. }
  assert (Hfrom : ∀ keys, mapM sort_key group = Ok keys →
                          StronglySorted (λ a b, b ≤ a) keys →
                          sorted_reverse group = Ok group).
  { intros keys Hm Hs. unfold sorted_reverse. rewrite Hm. simpl. f_equal.
    rewrite sort_desc_sorted by by apply zip_keys_sorted.
    apply snd_zip.
    assert (length keys = length group); [|lia].
    clear -Hm. revert keys Hm.
    induction group as [|t g IH]; intros keys; simpl; [by intros [= <-]|].
    destruct (sort_key t); [|done]. simpl.
    destruct (mapM sort_key g) as [ks|]; [|done]. simpl.
    intros [= <-]. simpl. by rewrite (IH ks). }
  destruct (split hyphen project) as [|p [|part rest]] eqn:Hsplit.
  - by destruct (split_nonempty hyphen project).
  - left. apply (Hfrom ids).
    + apply mapM_res_Ok. eapply Forall2_impl; [done|].
      intros t i [Hk Hi]. simpl.
      by rewrite (sort_key_ticket project i t Hi Hk), Hsplit.
    + eapply StronglySorted_weaken; [|done]. simpl. lia.
  - assert (Hconst : Forall (λ t, sort_key t = py_int part) group).
    { clear Hfrom Hkeys Hsorted Hpos.
      induction Hshape as [|t i g is' [Hk Hi] _ IH]; constructor; [|done].
      by rewrite (sort_key_ticket project i t Hi Hk), Hsplit. }
    destruct (py_int part) as [c|e] eqn:Hpart.
    + left. apply (Hfrom ((λ _, c) <$> group)); [|apply StronglySorted_const].
      apply mapM_res_Ok, Forall2_fmap_r, Forall_Forall2_diag.
      eapply Forall_impl; [done|]. by intros t ->.
    + destruct Hconst as [|t g Ht _]; [by left|right].
      exists e. unfold sorted_reverse. simpl. by rewrite Ht.
Qed.

(** With a project name that has no hyphen the sort never raises. *)
Lemma sorted_reverse_plain project group ids :
  split hyphen project = [project] →
  key <$> group = ticket_key_of project <$> ids →
  StronglySorted Z.gt ids → Forall (λ i, 0 < i) ids →
  sorted_reverse group = Ok group.
Proof.
  intros Hsplit Hkeys Hsorted Hpos.
  destruct (sorted_reverse_group project group ids) as [?|[e He]]; try done.
  exfalso. unfold sorted_reverse in He.
  assert (mapM sort_key group = Ok ids) as Hm; [|by rewrite Hm in He].
  apply mapM_res_Ok.
  assert (Forall2 (λ t i, key t = ticket_key_of project i) group ids) as Hk.
  { apply Forall2_fmap. rewrite Hkeys. by apply Forall_Forall2_diag, Forall_true. }
  clear Hkeys Hsorted He. induction Hk as [|t i g is' Hti _ IH]; [constructor|].
  apply Forall_cons in Hpos as [Hi Hpos]. constructor; [|by apply IH].
  by rewrite (sort_key_ticket project i t Hi Hti), Hsplit.
Qed.

(** C5: every group that the enumeration built holds tickets whose
    numbers strictly descend, and [print_group] prints the tickets of
    the group in exactly that order: always when the project name has
    no hyphen, and otherwise unless [int] raises on the part of the key
    that the sort reads, in which case no ticket is printed. *)
Theorem group_printed_descending self project max_results st status group :
  (enumerate self project max_results st).1 !! KStr status = Some group →
  ∃ ids,
    key <$> group = ticket_key_of project <$> ids ∧
    StronglySorted Z.gt ids ∧
    (print_group status group
     = (print (section_header status group);;
        print (repeat_char "-" 70);;
        for_ group print_ticket)
     ∨ ∃ e, print_group status group
            = mkW [section_header status group; repeat_char "-" 70] (Raise e)) ∧
    (split hyphen project = [project] →
     print_group status group
     = (print (section_header status group);;
        print (repeat_char "-" 70);;
        for_ group print_ticket)).
Proof.
  intros Hg. apply enumerate_groups in Hg as (ids & Hkeys & Hsorted & Hpos).
  exists ids. split_and!; [done..| |].
  - destruct (sorted_reverse_group project group ids) as [Hs|[e He]]; try done.
    + left. by apply print_group_sorted.
    + right. exists e. by apply print_group_raises.
  - intros Hplain. apply print_group_sorted.
    by apply (sorted_reverse_plain project group ids).
Qed.

(** *** Single rounds *)

Lemma try_ticket_skip self project found st ticket_id e w' :
  urlopen (issue_request self (ticket_key_of project ticket_id)) (world st)
    = (Raise e, w') →
  try_ticket self project (found, st) ticket_id
  = (found, mkSt w' (log st ++ [(issue_request self (ticket_key_of project ticket_id),
                                 Raise e)])).
Proof. intros Hu. unfold try_ticket, send. by rewrite Hu. Qed.

Lemma try_ticket_files self project found st ticket_id resp w' data sm sn an :
  urlopen (issue_request self (ticket_key_of project ticket_id)) (world st)
    = (Ok resp, w') →
  load_json resp = Ok data →
  read_fields data = Ok (sm, sn, an) →
  try_ticket self project (found, st) ticket_id
  = (store (ticket_key_of project ticket_id) sm sn an found,
     mkSt w' (log st ++ [(issue_request self (ticket_key_of project ticket_id),
                          Ok resp)])).
Proof.
  intros Hu Hd Hr. unfold try_ticket, send. rewrite Hu. simpl.
  rewrite Hd. simpl. by rewrite Hr.
Qed.

(** C10: a response whose fields have no status, or a status without a
    name, is read with the status "Unknown" and no other; when the rest
    of the ticket can be read, the ticket is appended to the group
    "Unknown" of the dict; and the display is the same whatever that
    group holds. *)
Theorem missing_status_filed_unknown
    self project found st ticket_id resp w' data f :
  urlopen (issue_request self (ticket_key_of project ticket_id)) (world st)
    = (Ok resp, w') →
  load_json resp = Ok data →
  get data "fields" (JObj []) = Ok (JObj f) →
  (assoc "status" f = None ∨
   ∃ d, assoc "status" f = Some (JObj d) ∧ assoc "name" d = None) →
  (∀ summary status assignee_name,
     read_fields data = Ok (summary, status, assignee_name) →
     status = JStr "Unknown") ∧
  (∀ s assignee_name,
     get (JObj f) "summary" (JStr "No summary") = Ok (JStr s) →
     assignee_name_of (default (JObj []) (assoc "assignee" f)) = Ok assignee_name →
     (try_ticket self project (found, st) ticket_id).1 !! KStr "Unknown"
     = Some (default [] (found !! KStr "Unknown")
             ++ [{| key := ticket_key_of project ticket_id;
                    summary := py_take 60 s
                       +:+ (if (60 <? py_len s)%nat then "..." else "");
                    assignee := assignee_name |}])) ∧
  (∀ found' group,
     display project (<[KStr "Unknown" := group]> found')
     = display project (delete (KStr "Unknown") found')).
Proof.
  intros Hu Hd Hf Hstatus.
  assert (Hr : read_fields data
               = (assignee_name ←
                    assignee_name_of (default (JObj []) (assoc "assignee" f));
                  Ok (default (JStr "No summary") (assoc "summary" f),
                      JStr "Unknown", assignee_name))).
  { unfold read_fields. rewrite Hf. simpl.
    by destruct Hstatus as [Hst|(d & Hst & Hname)]; rewrite Hst; simpl;
      [|rewrite Hname]. }
  split_and!.
  - intros sm sn an. rewrite Hr.
    destruct (assignee_name_of _); simpl; [|done]. by intros [= _ <- _].
  - intros s an [= Hsum] Han.
    rewrite Han, Hsum in Hr. simpl in Hr.
    rewrite (try_ticket_files _ _ _ _ _ _ _ _ _ _ _ Hu Hd Hr). simpl.
    by apply store_appends.
  - intros found' group. apply display_agree. intros status Hin _.
    assert (KStr "Unknown" ≠ KStr status).
    { intros [= <-]. revert Hin. unfold status_order. not_listed. }
    by rewrite lookup_insert_ne, lookup_delete_ne.
Qed.


End ListTickets.

(** ** [update_status] *)

Section UpdateStatus.
Context `{Runtime}.

Lemma find_transition_no_match new_status l :
  Forall (λ t, ∀ n, getitem t "name" = Ok (JStr n) → lower n ≠ lower new_status) l →
  (find_transition new_status l = Ok JNull ∨
   ∃ e, find_transition new_status l = Raise e) ∧
  (Forall (λ t, ∃ n, getitem t "name" = Ok (JStr n)) l →
   find_transition new_status l = Ok JNull).
Proof.
  induction 1 as [|t l Ht _ [IH1 IH2]]; [by split; [left|]|].
  simpl. destruct (getitem t "name") as [name|e] eqn:Hname; simpl.
  2:{ split; [right; by exists e|].
      intros [[n Hn] _]%Forall_cons. congruence. }
  destruct name as [| | |n| |];
    try (split; [right; by eexists|];
         intros [[n' Hn'] _]%Forall_cons; congruence).
  specialize (Ht n eq_refl). apply String.eqb_neq in Ht. rewrite Ht.
  split; [done|]. intros [_ Hl]%Forall_cons. by apply IH2.
Qed.

(** C1: when the transitions query answers and no transition of the
    answer has a name equal to the requested one after lower-casing,
    [update_status] returns [False], prints one line and has issued
    the GET request alone, no POST; the line is the "not available"
    message whenever every transition has a name (otherwise the
    ["Failed"] message of the exception). *)
Theorem unmatched_status_rejected self ticket_key new_status st resp w1 data l :
  urlopen (transitions_request self ticket_key) (world st) = (Ok resp, w1) →
  load_json resp = Ok data →
  (transitions ← get data "transitions" (JArr []); iterate transitions) = Ok l →
  Forall (λ t, ∀ n, getitem t "name" = Ok (JStr n) → lower n ≠ lower new_status) l →
  ∃ line,
    update_status self ticket_key new_status st
    = ([line], false,
       mkSt w1 (log st ++ [(transitions_request self ticket_key, Ok resp)])) ∧
    req_method (transitions_request self ticket_key) = GET ∧
    (line = not_available new_status ∨ ∃ e, line = failed e) ∧
    (Forall (λ t, ∃ n, getitem t "name" = Ok (JStr n)) l →
     line = not_available new_status).
Proof.
  intros Hu Hd Hl Hno.
  destruct (find_transition_no_match new_status l Hno) as [Hfind Hnamed].
  unfold update_status, send. rewrite Hu. simpl. rewrite Hd. simpl.
  destruct (get data "transitions" (JArr [])) as [ts|] eqn:Hts; [|done].
  simpl in Hl |- *. rewrite Hl. simpl.
  destruct Hfind as [Hfind|[e Hfind]]; rewrite Hfind; simpl.
  - exists (not_available new_status). split_and!; auto.
  - exists (failed e). split_and!; eauto.
    intros Hall. specialize (Hnamed Hall). congruence.
Qed.

End UpdateStatus.

(** ** [get_ticket] *)

Section GetTicket.
Context `{Runtime}.









End GetTicket.

(** ** The command line *)

Section Main.
Context `{Runtime}.

(** C9: once the client is constructed, a first argument other than
    ["list"], ["get"] and ["status"] makes the script print nothing,
    issue no request and end with exit code 0. *)
Theorem unknown_command_silent argv0 command args st helper :
  JiraHelper_init = Ok helper →
  command ∉ ["list"; "get"; "status"] →
  main (argv0 :: command :: args) st
  = {| stdout := []; exit_code := 0; final := st |}.
Proof.
  intros Hinit Hcmd. unfold main. rewrite Hinit.
  assert (command ≠ "list" ∧ command ≠ "get" ∧ command ≠ "status")
    as (H1 & H2 & H3).
  { split_and!; intros ->; apply Hcmd; repeat constructor. }
  apply String.eqb_neq in H1, H2, H3. by rewrite H1, H2, H3.
Qed.

End Main.

(** ** The concrete runtime *)

Lemma demo_int_str (z : Z) : 0 < z → demo_int (str_of_Z z) = Ok z.
Proof.
  intros Hz. unfold demo_int, str_of_Z.
  destruct z as [|p|p]; try lia.
  rewrite NilZero.isi.
  - by rewrite DecimalZ.of_to.
  - simpl. intros [= Hp]. by apply (DecimalPos.Unsigned.to_uint_nonnil p).
  - done.
Qed.

Lemma unmatched_status_rejected_witness :
  @update_status demo_runtime demo_helper "DXP-2" "Blocked" demo_st
  = ([@not_available "Blocked"], false,
     @mkSt demo_runtime ()
       [(transitions_request demo_helper "DXP-2", Ok demo_transitions)]).
Proof.
  assert (Hno : Forall (λ t, ∀ n, getitem t "name" = Ok (JStr n) →
                             demo_lower n ≠ demo_lower "Blocked")
                  [JObj [("id", JStr "21"); ("name", JStr "Ready for QA")];
                   JObj [("id", JStr "31"); ("name", JStr "Done")]]).
  { repeat constructor; intros n [= <-]; discriminate. }
  destruct (@unmatched_status_rejected demo_runtime demo_helper "DXP-2" "Blocked"
              demo_st _ () _ _ eq_refl eq_refl eq_refl Hno)
    as (line & Heq & _ & _ & Hline).
  rewrite Heq, Hline; [reflexivity|].
  repeat constructor; eexists; reflexivity.
Defined.


Lemma completed_never_listed_witness :
  "Done" ∈ ["Done"; "Ready for Deploy"] ∧
  (@list_tickets demo_runtime demo_helper "DXP" 3 demo_st).1
  = @display demo_runtime "DXP"
      (delete (KStr "Done") (@enumerate demo_runtime demo_helper "DXP" 3 demo_st).1).
Proof.
  assert (Hin : "Done" ∈ ["Done"; "Ready for Deploy"]) by repeat constructor.
  split; [exact Hin|].
  exact (proj1 (proj2 (proj2 (@completed_never_listed demo_runtime demo_helper "DXP" 3
                                demo_st "Done" Hin)))).
Defined.

Lemma unlisted_status_never_listed_witness :
  (JStr "Blocked" ∉ JStr <$> status_order) ∧
  (∀ found group,
     @display demo_runtime "DXP" (<[KStr "Blocked" := group]> found)
     = @display demo_runtime "DXP" (delete (KStr "Blocked") found)).
Proof.
  assert (Hno : JStr "Blocked" ∉ (JStr <$> status_order)).
  { unfold status_order. simpl. not_listed. }
  split; [exact Hno|].
  intros found group.
  exact (proj1 (proj2 (@unlisted_status_never_listed demo_runtime demo_helper "DXP" 3
                         demo_st (JStr "Blocked") Hno))
           (KStr "Blocked") found group eq_refl).
Defined.

Lemma group_printed_descending_witness :
  let group := [board_t4; board_t2; board_t1] in
  (@enumerate board_runtime demo_helper "WEB" 4 board_st).1 !! KStr "In Progress"
  = Some group ∧
  key <$> group = ticket_key_of "WEB" <$> [4; 2; 1] ∧
  StronglySorted Z.gt [4; 2; 1] ∧
  @print_group board_runtime "In Progress" group
  = (print (section_header "In Progress" group);;
     print (repeat_char "-" 70);;
     for_ group (@print_ticket board_runtime)).
Proof.
  intros group.
  assert (Hg : (@enumerate board_runtime demo_helper "WEB" 4 board_st).1
                 !! KStr "In Progress" = Some group)
    by (vm_compute; reflexivity).
  split; [exact Hg|].
  destruct (@group_printed_descending board_runtime demo_int_str demo_helper "WEB" 4
              board_st "In Progress" group Hg)
    as (ids & Hkeys & Hsorted & _ & Hplain).
  assert (ids = [4; 2; 1]) as ->.
  { destruct ids as [|i1 [|i2 [|i3 [|i4 ids]]]]; try discriminate Hkeys.
    injection Hkeys as H4 H2 H1.
    change (str_of_Z 4 = str_of_Z i1) in H4.
    change (str_of_Z 2 = str_of_Z i2) in H2.
    change (str_of_Z 1 = str_of_Z i3) in H1.
    apply str_of_Z_inj in H4, H2, H1. by subst. }
  split_and!; [exact Hkeys|exact Hsorted|].
  apply Hplain. reflexivity.
Defined.



Lemma missing_status_filed_unknown_witness :
  (@try_ticket demo_runtime demo_helper "DXP" (∅, demo_st) 4).1 !! KStr "Unknown"
  = Some [{| key := "DXP-4"; summary := "Write docs";
             assignee := JStr "Unassigned" |}].
Proof.
  exact (proj1 (proj2 (@missing_status_filed_unknown demo_runtime demo_helper "DXP"
                         ∅ demo_st 4 _ () _ _
                         eq_refl eq_refl eq_refl (or_introl eq_refl)))
           "Write docs" (JStr "Unassigned") eq_refl eq_refl).
Defined.


Lemma unknown_command_silent_witness :
  @main demo_runtime ["jira_helper.py"; "delete"; "DXP-1"] demo_st
  = {| stdout := []; exit_code := 0; final := demo_st |}.
Proof.
  apply (@unknown_command_silent demo_runtime "jira_helper.py" "delete" ["DXP-1"]
           demo_st demo_helper eq_refl).
  not_listed.
Defined.

(** * Further properties *)

(** ** [update_status]: the whole control flow *)

Section UpdateStatusFlow.
Context `{Runtime}.

(** What [update_status] does once the transitions query has answered
    with the transitions [l]. *)
Lemma update_status_after_query self ticket_key new_status st resp w1 data l :
  urlopen (transitions_request self ticket_key) (world st) = (Ok resp, w1) →
  load_json resp = Ok data →
  (transitions ← get data "transitions" (JArr []); iterate transitions) = Ok l →
  update_status self ticket_key new_status st
  = let st1 := mkSt w1 (log st ++ [(transitions_request self ticket_key, Ok resp)]) in
    match find_transition new_status l with
    | Raise e => ([failed e], false, st1)
    | Ok transition_id =>
        if negb (truthy transition_id)
        then ([not_available new_status], false, st1)
        else
          let '(r2, st2) :=
            send (transition_post self ticket_key transition_id) st1 in
          match r2 with
          | Ok _ =>
              (["✅ Updated " +:+ ticket_key +:+ " to " +:+ new_status], true, st2)
          | Raise e => ([failed e], false, st2)
          end
    end.
Proof.
  intros Hu Hd Hl. unfold update_status, send at 1. rewrite Hu. simpl.
  rewrite Hd. simpl.
  destruct (get data "transitions" (JArr [])) as [ts|] eqn:Hts; [|done].
  simpl in Hl |- *. by rewrite Hl.
Qed.

(** The loop stops at the first transition whose name matches. *)
Lemma find_transition_first_match new_status pre t post n :
  Forall (λ t', ∃ n', getitem t' "name" = Ok (JStr n') ∧
                      lower n' ≠ lower new_status) pre →
  getitem t "name" = Ok (JStr n) →
  lower n = lower new_status →
  find_transition new_status (pre ++ t :: post) = getitem t "id".
Proof.
  intros Hpre Hn Hmatch.
  induction Hpre as [|t' pre (n' & Hn' & Hne) _ IH]; simpl.
  - rewrite Hn. simpl. by rewrite Hmatch, String.eqb_refl.
  - rewrite Hn'. simpl. apply String.eqb_neq in Hne. by rewrite Hne.
Qed.

(** X1: when the first transition whose name equals the requested one
    after lower-casing has the id [transition_id], and the POST is
    answered, [update_status] has sent the GET and then one POST to the
    transitions URL with the body [{"transition": {"id": transition_id}}],
    prints the "Updated" line and returns [True]; transitions after the
    first match play no part. *)
Theorem first_match_is_posted
    self ticket_key new_status st resp w1 data pre t post n transition_id r2 w2 :
  urlopen (transitions_request self ticket_key) (world st) = (Ok resp, w1) →
  load_json resp = Ok data →
  (transitions ← get data "transitions" (JArr []); iterate transitions)
    = Ok (pre ++ t :: post) →
  Forall (λ t', ∃ n', getitem t' "name" = Ok (JStr n') ∧
                      lower n' ≠ lower new_status) pre →
  getitem t "name" = Ok (JStr n) →
  lower n = lower new_status →
  getitem t "id" = Ok transition_id →
  truthy transition_id = true →
  urlopen (transition_post self ticket_key transition_id) w1 = (Ok r2, w2) →
  update_status self ticket_key new_status st
  = (["✅ Updated " +:+ ticket_key +:+ " to " +:+ new_status], true,
     mkSt w2 (log st ++ [(transitions_request self ticket_key, Ok resp);
                         (transition_post self ticket_key transition_id, Ok r2)])) ∧
  req_method (transition_post self ticket_key transition_id) = POST ∧
  req_url (transition_post self ticket_key transition_id)
  = req_url (transitions_request self ticket_key) ∧
  req_data (transition_post self ticket_key transition_id)
  = Some (JObj [("transition", JObj [("id", transition_id)])]).
Proof.
  intros Hu Hd Hl Hpre Hn Hmatch Hid Htruthy Hpost.
  rewrite (update_status_after_query _ _ _ _ _ _ _ _ Hu Hd Hl).
  rewrite (find_transition_first_match _ _ _ _ _ Hpre Hn Hmatch), Hid.
  cbv zeta. rewrite Htruthy. simpl negb. cbv iota.
  unfold send. simpl world. rewrite Hpost. simpl.
  by rewrite <- (assoc_L (++)).
Qed.

(** X2: when the POST raises, [update_status] prints the "Failed" line
    of the exception and returns [False]; the POST has been sent. *)
Theorem refused_post_is_reported
    self ticket_key new_status st resp w1 data pre t post n transition_id e w2 :
  urlopen (transitions_request self ticket_key) (world st) = (Ok resp, w1) →
  load_json resp = Ok data →
  (transitions ← get data "transitions" (JArr []); iterate transitions)
    = Ok (pre ++ t :: post) →
  Forall (λ t', ∃ n', getitem t' "name" = Ok (JStr n') ∧
                      lower n' ≠ lower new_status) pre →
  getitem t "name" = Ok (JStr n) →
  lower n = lower new_status →
  getitem t "id" = Ok transition_id →
  truthy transition_id = true →
  urlopen (transition_post self ticket_key transition_id) w1 = (Raise e, w2) →
  update_status self ticket_key new_status st
  = ([failed e], false,
     mkSt w2 (log st ++ [(transitions_request self ticket_key, Ok resp);
                         (transition_post self ticket_key transition_id, Raise e)])).
Proof.
  intros Hu Hd Hl Hpre Hn Hmatch Hid Htruthy Hpost.
  rewrite (update_status_after_query _ _ _ _ _ _ _ _ Hu Hd Hl).
  rewrite (find_transition_first_match _ _ _ _ _ Hpre Hn Hmatch), Hid.
  cbv zeta. rewrite Htruthy. simpl negb. cbv iota.
  unfold send. simpl world. rewrite Hpost. simpl.
  by rewrite <- (assoc_L (++)).
Qed.

(** X3: when the transitions query raises, in [urlopen] or in decoding
    the body, [update_status] prints the "Failed" line of the exception,
    returns [False] and has sent nothing but the GET. *)
Theorem failed_query_is_reported self ticket_key new_status st e :
  (resp ← (send (transitions_request self ticket_key) st).1; load_json resp)
    = Raise e →
  update_status self ticket_key new_status st
  = ([failed e], false, (send (transitions_request self ticket_key) st).2) ∧
  log (send (transitions_request self ticket_key) st).2
  = log st ++ [(transitions_request self ticket_key,
                (send (transitions_request self ticket_key) st).1)].
Proof.
  intros Hq. split.
  - unfold update_status.
    destruct (send (transitions_request self ticket_key) st) as [r st1].
    simpl in Hq |- *.
    destruct r as [resp|e']; simpl in Hq |- *; [|by injection Hq as ->].
    by rewrite Hq.
  - unfold send. by destruct (urlopen _ _).
Qed.

(** X4: a matching transition whose id is falsy ([None], the empty
    str, [0], [False], an empty list or dict) is treated as no match:
    the "not available" line, [False], and no POST. *)
Theorem falsy_id_is_rejected
    self ticket_key new_status st resp w1 data pre t post n transition_id :
  urlopen (transitions_request self ticket_key) (world st) = (Ok resp, w1) →
  load_json resp = Ok data →
  (transitions ← get data "transitions" (JArr []); iterate transitions)
    = Ok (pre ++ t :: post) →
  Forall (λ t', ∃ n', getitem t' "name" = Ok (JStr n') ∧
                      lower n' ≠ lower new_status) pre →
  getitem t "name" = Ok (JStr n) →
  lower n = lower new_status →
  getitem t "id" = Ok transition_id →
  truthy transition_id = false →
  update_status self ticket_key new_status st
  = ([not_available new_status], false,
     mkSt w1 (log st ++ [(transitions_request self ticket_key, Ok resp)])).
Proof.
  intros Hu Hd Hl Hpre Hn Hmatch Hid Hfalsy.
  rewrite (update_status_after_query _ _ _ _ _ _ _ _ Hu Hd Hl).
  rewrite (find_transition_first_match _ _ _ _ _ Hpre Hn Hmatch), Hid.
  cbv zeta. by rewrite Hfalsy.
Qed.

(** X5: whatever the server answers, [update_status] sends the GET of
    the transitions first and after it at most one request, a POST to
    the same URL carrying a truthy transition id; it returns [True]
    exactly when that POST was sent and answered. *)
Theorem update_status_requests self ticket_key new_status st :
  let '(_, ok, st') := update_status self ticket_key new_status st in
  let query := transitions_request self ticket_key in
  (ok = false ∧ ∃ r, log st' = log st ++ [(query, r)]) ∨
  (∃ resp transition_id r2,
     truthy transition_id = true ∧
     log st' = log st ++ [(query, Ok resp);
                          (transition_post self ticket_key transition_id, r2)] ∧
     ok = match r2 with Ok _ => true | Raise _ => false end).
Proof.
  unfold update_status.
  pose proof (send_log (transitions_request self ticket_key) st) as Hlog1.
  destruct (send (transitions_request self ticket_key) st) as [r st1].
  simpl in Hlog1.
  destruct (r ≫= λ resp, load_json resp ≫= λ data,
              get data "transitions" (JArr []) ≫= λ transitions,
              iterate transitions ≫= λ l, find_transition new_status l)
    as [tid|e] eqn:Hq; [|left; eauto].
  destruct (truthy tid) eqn:Ht; simpl negb; cbv iota; [|left; eauto].
  destruct r as [resp|]; [|done].
  pose proof (send_log (transition_post self ticket_key tid) st1) as Hlog2.
  destruct (send (transition_post self ticket_key tid) st1) as [r2 st2].
  simpl in Hlog2.
  destruct r2 as [x|e2]; simpl; right;
    [exists resp, tid, (Ok x)|exists resp, tid, (Raise e2)];
    by rewrite Hlog2, Hlog1, <- (assoc_L (++)).
Qed.

End UpdateStatusFlow.

(** ** [get_ticket]: the whole output *)

Section GetTicketOutput.
Context `{Runtime}.

(** X6: whatever the server answers, [get_ticket] sends exactly one
    request, the GET of the issue, and nothing else. *)
Theorem get_ticket_one_request self ticket_key st :
  (get_ticket self ticket_key st).2
  = (send (issue_request self ticket_key) st).2 ∧
  log (get_ticket self ticket_key st).2
  = log st ++ [(issue_request self ticket_key,
                (send (issue_request self ticket_key) st).1)] ∧
  req_method (issue_request self ticket_key) = GET ∧
  req_data (issue_request self ticket_key) = None.
Proof.
  assert (Hst : (get_ticket self ticket_key st).2
                = (send (issue_request self ticket_key) st).2).
  { unfold get_ticket.
    destruct (send (issue_request self ticket_key) st) as [r st1]. simpl.
    destruct (r ≫= λ resp, load_json resp) as [data|e]; [|done].
    by destruct (val (show_ticket ticket_key data)). }
  split_and!; try done. by rewrite Hst, send_log.
Qed.



End GetTicketOutput.

(** ** [list_tickets]: requests and output *)

Section ListTicketsRun.
Context `{Runtime}.

Lemma foldl_try_ticket_log self project l :
  ∀ found st,
    ∃ exchanges,
      log (foldl (try_ticket self project) (found, st) l).2 = log st ++ exchanges ∧
      exchanges.*1 = (λ i, issue_request self (ticket_key_of project i)) <$> l.
Proof.
  induction l as [|x l IH]; intros found st.
  - exists []. by rewrite app_nil_r.
  - change (foldl (try_ticket self project) (found, st) (x :: l))
      with (foldl (try_ticket self project)
              (try_ticket self project (found, st) x) l).
    destruct (try_ticket_cases self project found st x) as [Hst _].
    destruct (try_ticket self project (found, st) x) as [found' st'].
    simpl in Hst.
    destruct (IH found' st') as (ex & Hlog & Hreq).
    exists ((issue_request self (ticket_key_of project x),
             (send (issue_request self (ticket_key_of project x)) st).1) :: ex).
    split.
    + rewrite Hlog, Hst, send_log. by rewrite <- (assoc_L (++)).
    + by rewrite !fmap_cons, Hreq.
Qed.

(** X9: whatever the server answers, the enumeration sends exactly one
    request per candidate number, for the keys [project-max_results]
    down to [project-1] in that order, each a GET of the issue; a
    request that fails does not stop it. *)
Theorem enumeration_requests self project max_results st :
  ∃ exchanges,
    log (list_tickets self project max_results st).2 = log st ++ exchanges ∧
    exchanges.*1
    = (λ i, issue_request self (ticket_key_of project i)) <$> range_down max_results ∧
    length exchanges = Z.to_nat max_results ∧
    Forall (λ i, 1 ≤ i ≤ max_results) (range_down max_results) ∧
    Forall (λ req, req_method req = GET ∧ req_data req = None) exchanges.*1.
Proof.
  destruct (foldl_try_ticket_log self project (range_down max_results) ∅ st)
    as (ex & Hlog & Hreq).
  exists ex. split_and!; [| | | |by rewrite Hreq; apply Forall_fmap, Forall_true].
  - unfold list_tickets. fold (enumerate self project max_results st) in Hlog.
    by destruct (enumerate self project max_results st).
  - done.
  - apply (f_equal length) in Hreq. rewrite !length_fmap in Hreq.
    rewrite Hreq. unfold range_down. by rewrite length_fmap, length_seq.
  - destruct (range_down_sorted max_results) as [_ Hr].
    eapply Forall_impl; [done|]. simpl. lia.
Qed.

(** X23: a candidate whose request raises, whose body is no JSON, or
    whose document cannot be read (its fields, status or a non-empty
    assignee are no dict) is skipped without a trace: the dict is
    unchanged and the enumeration goes on from the state after the
    request. *)
Theorem unreadable_candidate_is_skipped self project found st ticket_id e :
  (resp ← (send (issue_request self (ticket_key_of project ticket_id)) st).1;
   data ← load_json resp;
   read_fields data) = Raise e →
  try_ticket self project (found, st) ticket_id
  = (found, (send (issue_request self (ticket_key_of project ticket_id)) st).2) ∧
  (∀ fields v,
     assoc "assignee" fields = Some v → truthy v = true → is_dict v = false →
     ∃ e', read_fields (JObj [("fields", JObj fields)]) = Raise e') ∧
  (∀ fields v,
     assoc "status" fields = Some v → is_dict v = false →
     ∃ e', read_fields (JObj [("fields", JObj fields)]) = Raise e').
Proof.
  intros Hr. split_and!.
  - unfold try_ticket.
    destruct (send (issue_request self (ticket_key_of project ticket_id)) st)
      as [r st'].
    simpl in Hr |- *. by rewrite Hr.
  - intros fields v Ha Ht Hd. unfold read_fields.
    change (get (JObj [("fields", JObj fields)]) "fields" (JObj []))
      with (Ok (JObj fields)).
    unfold get. simpl. rewrite Ha. simpl.
    destruct (default (JObj []) (assoc "status" fields)); simpl; eauto.
    unfold assignee_name_of. rewrite Ht. destruct v; simpl; try done; eauto.
  - intros fields v Hs Hd. unfold read_fields.
    change (get (JObj [("fields", JObj fields)]) "fields" (JObj []))
      with (Ok (JObj fields)).
    unfold get. simpl. rewrite Hs. simpl.
    destruct v; simpl; try done; eauto.
Qed.

Lemma display_empty project :
  display project ∅ = mkW [newline +:+ project +:+ " Tickets:"; repeat_char "=" 80]
                          (Ok tt).
Proof.
  unfold display.
  rewrite (for_ext (display_status ∅) (λ _, mret tt)).
  - reflexivity.
  - apply Forall_forall. intros status _. unfold display_status.
    by rewrite lookup_empty.
Qed.

(** X10: when every request raises (the server is unreachable, or the
    credentials are refused), [list_tickets] prints the title and the
    rule and nothing else, and ends normally: the failure looks like a
    project without tickets. *)
Theorem unreachable_server_lists_nothing self project max_results st :
  (∀ req w, ∃ e w', urlopen req w = (Raise e, w')) →
  (list_tickets self project max_results st).1
  = mkW [newline +:+ project +:+ " Tickets:"; repeat_char "=" 80] (Ok tt).
Proof.
  intros Hdown.
  assert (Hfold : ∀ l st0, (foldl (try_ticket self project) (∅, st0) l).1 = ∅).
  { induction l as [|x l IH]; intros st0; [done|].
    change (foldl (try_ticket self project) (∅, st0) (x :: l))
      with (foldl (try_ticket self project)
              (try_ticket self project (∅, st0) x) l).
    destruct (Hdown (issue_request self (ticket_key_of project x)) (world st0))
      as (e & w' & Hu).
    rewrite (try_ticket_skip _ _ _ _ _ _ _ Hu). apply IH. }
  unfold list_tickets.
  pose proof (Hfold (range_down max_results) st) as Hnone.
  fold (enumerate self project max_results st) in Hnone.
  destruct (enumerate self project max_results st) as [found st']. simpl in *.
  subst found. apply display_empty.
Qed.

(** X11: with [max_results] zero or negative [list_tickets] sends no
    request at all and prints the title and the rule. *)
Theorem no_candidates_no_requests self project max_results st :
  max_results ≤ 0 →
  list_tickets self project max_results st
  = (mkW [newline +:+ project +:+ " Tickets:"; repeat_char "=" 80] (Ok tt), st).
Proof.
  intros Hmax. unfold list_tickets, enumerate, range_down.
  replace (Z.to_nat max_results) with 0%nat by lia. simpl.
  by rewrite display_empty.
Qed.

Lemma store_unreadable_summary ticket_key summary status assignee_name found k :
  hash_key status = Ok k →
  (∀ s, summary ≠ JStr s) →
  store ticket_key summary status assignee_name found
  = match found !! k with
    | Some _ => found
    | None => <[k := []]> found
    end.
Proof.
  intros Hk Hs. unfold store. rewrite Hk.
  destruct summary; try done. by destruct (Hs s).
Qed.

(** X13: a ticket whose summary is no str (for instance [null]) is not
    listed, but its group has been created before the entry is built:
    when the status had no group yet, an empty group is left behind,
    and [print_group] shows it with the heading ["(0 tickets)"]. *)
Theorem unreadable_summary_leaves_empty_group
    self project found st ticket_id resp w' data summary status assignee_name :
  urlopen (issue_request self (ticket_key_of project ticket_id)) (world st)
    = (Ok resp, w') →
  load_json resp = Ok data →
  read_fields data = Ok (summary, JStr status, assignee_name) →
  (∀ s, summary ≠ JStr s) →
  (try_ticket self project (found, st) ticket_id).1
  = match found !! KStr status with
    | Some _ => found
    | None => <[KStr status := []]> found
    end ∧
  print_group status []
  = mkW [newline +:+ "[" +:+ status +:+ "] (0 tickets)"; repeat_char "-" 70] (Ok tt).
Proof.
  intros Hu Hd Hr Hs. split; [|done].
  rewrite (try_ticket_files _ _ _ _ _ _ _ _ _ _ _ Hu Hd Hr). simpl.
  by apply store_unreadable_summary.
Qed.

(** Every ticket of the dict has the key of one of the candidates and
    a summary of at most 63 characters (code points). *)
Lemma enumerate_tickets self project max_results st k g t :
  (enumerate self project max_results st).1 !! k = Some g → t ∈ g →
  (∃ ticket_id, 1 ≤ ticket_id ≤ max_results ∧
                key t = ticket_key_of project ticket_id) ∧
  (py_len (summary t) ≤ 63)%nat.
Proof.
  intros Hg Ht.
  destruct (enumerate_provenance self project max_results st)
    as (ex & Hlog & Hprov).
  destruct (Hprov _ _ _ Hg Ht) as (i & resp & data & s & sn & an & Hin & _ & _ & _ & ->).
  split.
  - destruct (foldl_try_ticket_log self project (range_down max_results) ∅ st)
      as (ex' & Hlog' & Hreq).
    fold (enumerate self project max_results st) in Hlog'.
    rewrite Hlog in Hlog'. apply app_inv_head in Hlog'. subst ex'.
    assert (Hfst : issue_request self (ticket_key_of project i) ∈ ex.*1).
    { apply list_elem_of_fmap. by exists (issue_request self (ticket_key_of project i), Ok resp). }
    rewrite Hreq in Hfst. apply list_elem_of_fmap in Hfst as (j & Heq & Hj).
    destruct (range_down_sorted max_results) as [_ Hr].
    rewrite Forall_forall in Hr. specialize (Hr j Hj).
    exists j. split; [lia|]. simpl.
    injection Heq as Heq. unfold ticket_key_of in *.
    apply append_inv_head in Heq. by apply append_inv_head in Heq.
  - cbn [summary]. rewrite py_len_append.
    pose proof (py_len_take 60 s).
    destruct (60 <? py_len s)%nat; simpl; lia.
Qed.

(** X15: every ticket that the enumeration keeps carries the key of a
    candidate: [project-n] with [1 <= n <= max_results]. *)
Theorem found_keys_are_candidates self project max_results st k g t :
  (enumerate self project max_results st).1 !! k = Some g → t ∈ g →
  ∃ ticket_id, 1 ≤ ticket_id ≤ max_results ∧
               key t = ticket_key_of project ticket_id.
Proof. intros Hg Ht. by destruct (enumerate_tickets _ _ _ _ _ _ _ Hg Ht). Qed.

(** X16: the summary kept for a ticket is never longer than 63
    characters, counted as Python counts them (code points): 60 of the
    fetched summary and the three of the marker. *)
Theorem found_summaries_are_short self project max_results st k g t :
  (enumerate self project max_results st).1 !! k = Some g → t ∈ g →
  (py_len (summary t) ≤ 63)%nat.
Proof. intros Hg Ht. by destruct (enumerate_tickets _ _ _ _ _ _ _ Hg Ht). Qed.

End ListTicketsRun.

(** ** [list_tickets]: the listing as a whole *)

Section Listing.
Context `{Runtime}.





Lemma sort_key_hyphenated project p part rest ticket_id t :
  split hyphen project = p :: part :: rest →
  key t = ticket_key_of project ticket_id →
  sort_key t = py_int part.
Proof.
  intros Hsplit Hkey. unfold sort_key. rewrite Hkey. unfold ticket_key_of.
  change ("-" +:+ str_of_Z ticket_id) with (String hyphen (str_of_Z ticket_id)).
  by rewrite split_join, Hsplit.
Qed.

Lemma val_for_raise {A} (body : A → W unit) (e : exn) (l : list A) :
  Forall (λ x, val (body x) = Ok tt ∨ val (body x) = Raise e) l →
  Exists (λ x, val (body x) = Raise e) l →
  val (for_ l body) = Raise e.
Proof.
  induction 1 as [|x l Hx Hl IH]; intros Hex; [by apply Exists_nil in Hex|].
  simpl. unfold mbind, W_bind.
  destruct Hx as [Hx|Hx]; rewrite Hx; [|done]. simpl.
  apply Exists_cons in Hex as [Hex|Hex]; [congruence|by apply IH].
Qed.

(** X14: with a project name that has a hyphen, the sort reads the
    second part of the project name as the number of every ticket;
    when [int] raises on that part and some shown status has a ticket,
    [list_tickets] raises that exception instead of finishing the
    listing. *)
Theorem hyphenated_project_raises
    self project max_results st p part rest e status group :
  split hyphen project = p :: part :: rest →
  py_int part = Raise e →
  status ∈ status_order →
  status ∉ ["Done"; "Ready for Deploy"] →
  (enumerate self project max_results st).1 !! KStr status = Some group →
  group ≠ [] →
  val (list_tickets self project max_results st).1 = Raise e.
Proof.
  intros Hsplit Hint Hin Hshown Hg Hne.
  assert (Hgroup : ∀ status' g,
    (enumerate self project max_results st).1 !! KStr status' = Some g →
    g = [] ∨ sorted_reverse g = Raise e).
  { intros status' g Hg'.
    destruct (enumerate_groups self project max_results st _ _ Hg')
      as (ids & Hkeys & _ & _).
    destruct g as [|t g]; [by left|right].
    destruct ids as [|i ids]; [done|]. injection Hkeys as Hk _.
    unfold sorted_reverse. simpl.
    by rewrite (sort_key_hyphenated _ _ _ _ _ _ Hsplit Hk), Hint. }
  unfold list_tickets.
  destruct (enumerate self project max_results st) as [found st'].
  cbn [fst] in *.
  unfold display. rewrite !print_bind. cbn [val].
  apply val_for_raise.
  - apply Forall_forall. intros status' _. unfold display_status.
    destruct (found !! KStr status') as [g|] eqn:Hf; [|by left].
    destruct (bool_decide _); [by left|].
    destruct (Hgroup _ _ Hf) as [->|Hs]; [by left|right].
    by rewrite (print_group_raises _ _ _ Hs).
  - apply Exists_exists. exists status. split; [done|].
    unfold display_status. rewrite Hg, bool_decide_eq_false_2 by done.
    destruct (Hgroup _ _ Hg) as [?|Hs]; [done|].
    by rewrite (print_group_raises _ _ _ Hs).
Qed.

Hypothesis py_int_str : ∀ z, 0 < z → py_int (str_of_Z z) = Ok z.


End Listing.

(** ** The command line and the construction of the client *)

Section MainDispatch.
Context `{Runtime}.

(** X17: with no command on the command line the script prints the
    four usage lines and exits with code 1, without any request. *)
Theorem no_command_prints_usage argv st helper :
  JiraHelper_init = Ok helper →
  (length argv ≤ 1)%nat →
  main argv st = {| stdout := usage; exit_code := 1; final := st |}.
Proof.
  intros Hinit Hlen. unfold main. rewrite Hinit.
  destruct argv as [|a [|c args]]; simpl in Hlen; try done. lia.
Qed.

(** X18: when the credential file cannot be read, or the token cannot
    be encoded, the client is not constructed: whatever the arguments,
    the script prints nothing on stdout, sends no request and exits with
    code 1; not even the usage is shown. *)
Theorem no_credentials_no_run e argv st :
  (read_file "/Users/bgerby/.jira.d/.pass" = Raise e ∨
   ∃ content,
     read_file "/Users/bgerby/.jira.d/.pass" = Ok content ∧
     b64encode ("bgerby@jaxondigital.com" +:+ ":" +:+ strip content) = Raise e) →
  JiraHelper_init = Raise e ∧
  main argv st = {| stdout := []; exit_code := 1; final := st |}.
Proof.
  intros Hcred.
  assert (Hinit : JiraHelper_init = Raise e).
  { unfold JiraHelper_init.
    destruct Hcred as [->|(content & -> & Hb)]; [done|].
    simpl. by rewrite Hb. }
  split; [done|]. unfold main. by rewrite Hinit.
Qed.

(** X19: ["get"] without a ticket key and ["status"] with less than two
    arguments print their one-line message and exit with code 1,
    without any request. *)
Theorem missing_arguments_exit_1 argv0 args st helper :
  JiraHelper_init = Ok helper →
  main [argv0; "get"] st
  = {| stdout := ["Please specify ticket key (e.g., DXP-28)"];
       exit_code := 1; final := st |} ∧
  ((length args < 2)%nat →
   main (argv0 :: "status" :: args) st
   = {| stdout := ["Usage: python3 jira_helper.py status TICKET-KEY NEW-STATUS"];
        exit_code := 1; final := st |}).
Proof.
  intros Hinit. unfold main. rewrite Hinit. split; [done|].
  intros Hlen. destruct args as [|k [|n rest]]; simpl in Hlen; try done. lia.
Qed.

(** X20: ["get"] and ["status"] with their arguments print what the
    operation printed and exit with code 0 whatever it returned: a
    failed fetch or a refused transition does not change the exit
    code.  Arguments after the ones they need are ignored. *)
Theorem operations_exit_0 argv0 ticket_key new_status rest st helper :
  JiraHelper_init = Ok helper →
  main (argv0 :: "get" :: ticket_key :: rest) st
  = {| stdout := (get_ticket helper ticket_key st).1.1;
       exit_code := 0;
       final := (get_ticket helper ticket_key st).2 |} ∧
  main (argv0 :: "status" :: ticket_key :: new_status :: rest) st
  = {| stdout := (update_status helper ticket_key new_status st).1.1;
       exit_code := 0;
       final := (update_status helper ticket_key new_status st).2 |}.
Proof.
  intros Hinit. unfold main. rewrite Hinit. split.
  - change (String.eqb "get" "list") with false.
    change (String.eqb "get" "get") with true. cbv iota.
    by destruct (get_ticket helper ticket_key st) as [[o r] st'].
  - change (String.eqb "status" "list") with false.
    change (String.eqb "status" "get") with false.
    change (String.eqb "status" "status") with true. cbv iota.
    by destruct (update_status helper ticket_key new_status st) as [[o r] st'].
Qed.

(** X21: ["list"] scans the project given as the next argument, or
    "DXP" when there is none: it sends exactly 30 requests, the GETs of
    the issues numbered 30 down to 1 of that project. *)
Theorem list_command_scans_30 argv0 args st helper :
  JiraHelper_init = Ok helper →
  let project := match args with p :: _ => p | [] => "DXP" end in
  ∃ exchanges,
    log (final (main (argv0 :: "list" :: args) st)) = log st ++ exchanges ∧
    exchanges.*1
    = (λ i, issue_request helper (ticket_key_of project i)) <$> range_down 30 ∧
    length exchanges = 30%nat.
Proof.
  intros Hinit project. unfold main. rewrite Hinit.
  change (String.eqb "list" "list") with true. cbv iota. fold project.
  destruct (foldl_try_ticket_log helper project (range_down 30) ∅ st)
    as (ex & Hlog & Hreq).
  fold (enumerate helper project 30 st) in Hlog.
  exists ex. unfold list_tickets.
  destruct (enumerate helper project 30 st) as [found st']. simpl in Hlog |- *.
  split_and!; [done..|].
  apply (f_equal length) in Hreq. by rewrite !length_fmap in Hreq.
Qed.

(** X22: a client that was constructed holds the stripped content of
    the credential file as its token, and every issue request it builds
    goes to the fixed host with the header
    [Authorization: Basic base64(email:token)] and [Accept:
    application/json]. *)
Theorem constructed_client_authenticates helper ticket_key :
  JiraHelper_init = Ok helper →
  ∃ content,
    read_file "/Users/bgerby/.jira.d/.pass" = Ok content ∧
    token helper = strip content ∧
    b64encode ("bgerby@jaxondigital.com" +:+ ":" +:+ token helper)
      = Ok (auth_b64 helper) ∧
    issue_request helper ticket_key
    = {| req_url := "https://jaxondigital.atlassian.net/rest/api/3/issue/"
                      +:+ ticket_key;
         req_method := GET;
         req_headers := [("Authorization", "Basic " +:+ auth_b64 helper);
                         ("Accept", "application/json")];
         req_data := None |}.
Proof.
  unfold JiraHelper_init.
  destruct (read_file "/Users/bgerby/.jira.d/.pass") as [content|] eqn:Hfile;
    [|done].
  simpl.
  destruct (b64encode _) as [b|] eqn:Hb; [|done].
  simpl. intros [= <-]. exists content. by split_and!.
Qed.

End MainDispatch.

(** ** The further properties on the concrete runtimes *)

Lemma first_match_is_posted_witness :
  @update_status more_runtime demo_helper "DXP-6" "done" more_st
  = (["✅ Updated DXP-6 to done"], true,
     @mkSt more_runtime ()
       [(transitions_request demo_helper "DXP-6", Ok demo_transitions6);
        (transition_post demo_helper "DXP-6" (JStr "31"), Ok JNull)]).
Proof.
  refine (proj1 (@first_match_is_posted more_runtime demo_helper "DXP-6" "done"
                   more_st demo_transitions6 () demo_transitions6
                   [JObj [("id", JStr "11"); ("name", JStr "In Progress")];
                    JObj [("id", JStr ""); ("name", JStr "Blocked")]]
                   (JObj [("id", JStr "31"); ("name", JStr "Done")])
                   [JObj [("id", JStr "32"); ("name", JStr "DONE")]]
                   "Done" (JStr "31") JNull ()
                   eq_refl eq_refl eq_refl _ eq_refl eq_refl eq_refl eq_refl eq_refl)).
  repeat constructor; eexists; (split; [reflexivity|discriminate]).
Defined.

Lemma refused_post_is_reported_witness :
  @update_status readonly_runtime demo_helper "DXP-6" "done" readonly_st
  = (["❌ Failed: HTTP Error 403: Forbidden"], false,
     @mkSt readonly_runtime ()
       [(transitions_request demo_helper "DXP-6", Ok demo_transitions6);
        (transition_post demo_helper "DXP-6" (JStr "31"),
         Raise (URLError "HTTP Error 403: Forbidden"))]).
Proof.
  refine (@refused_post_is_reported readonly_runtime demo_helper "DXP-6" "done"
            readonly_st demo_transitions6 () demo_transitions6
            [JObj [("id", JStr "11"); ("name", JStr "In Progress")];
             JObj [("id", JStr ""); ("name", JStr "Blocked")]]
            (JObj [("id", JStr "31"); ("name", JStr "Done")])
            [JObj [("id", JStr "32"); ("name", JStr "DONE")]]
            "Done" (JStr "31") (URLError "HTTP Error 403: Forbidden") ()
            eq_refl eq_refl eq_refl _ eq_refl eq_refl eq_refl eq_refl eq_refl).
  repeat constructor; eexists; (split; [reflexivity|discriminate]).
Defined.

Lemma failed_query_is_reported_witness :
  @update_status more_runtime demo_helper "DXP-9" "done" more_st
  = (["❌ Failed: HTTP Error 404: Not Found"], false,
     @mkSt more_runtime ()
       [(transitions_request demo_helper "DXP-9",
         Raise (URLError "HTTP Error 404: Not Found"))]).
Proof.
  exact (proj1 (@failed_query_is_reported more_runtime demo_helper "DXP-9" "done"
                  more_st (URLError "HTTP Error 404: Not Found") eq_refl)).
Defined.

Lemma falsy_id_is_rejected_witness :
  @update_status more_runtime demo_helper "DXP-6" "blocked" more_st
  = (["Status 'blocked' not available"], false,
     @mkSt more_runtime ()
       [(transitions_request demo_helper "DXP-6", Ok demo_transitions6)]).
Proof.
  refine (@falsy_id_is_rejected more_runtime demo_helper "DXP-6" "blocked"
            more_st demo_transitions6 () demo_transitions6
            [JObj [("id", JStr "11"); ("name", JStr "In Progress")]]
            (JObj [("id", JStr ""); ("name", JStr "Blocked")])
            [JObj [("id", JStr "31"); ("name", JStr "Done")];
             JObj [("id", JStr "32"); ("name", JStr "DONE")]]
            "Blocked" (JStr "")
            eq_refl eq_refl eq_refl _ eq_refl eq_refl eq_refl eq_refl).
  repeat constructor; eexists; (split; [reflexivity|discriminate]).
Defined.



Lemma unreachable_server_lists_nothing_witness :
  (@list_tickets offline_runtime demo_helper "DXP" 30 offline_st).1
  = mkW [newline +:+ "DXP Tickets:"; repeat_char "=" 80] (Ok tt).
Proof.
  apply (@unreachable_server_lists_nothing offline_runtime demo_helper "DXP" 30
           offline_st).
  intros req w. simpl. unfold pages_urlopen.
  destruct (req_method req); eauto.
Defined.

Lemma no_candidates_no_requests_witness :
  @list_tickets demo_runtime demo_helper "DXP" 0 demo_st
  = (mkW [newline +:+ "DXP Tickets:"; repeat_char "=" 80] (Ok tt), demo_st).
Proof.
  apply (@no_candidates_no_requests demo_runtime demo_helper "DXP" 0 demo_st).
  lia.
Defined.

Lemma unreadable_summary_leaves_empty_group_witness :
  (@try_ticket more_runtime demo_helper "DXP" (∅, more_st) 5).1
  = <[KStr "Client QA" := []]> ∅ ∧
  @print_group more_runtime "Client QA" []
  = mkW [newline +:+ "[Client QA] (0 tickets)"; repeat_char "-" 70] (Ok tt).
Proof.
  refine (@unreadable_summary_leaves_empty_group more_runtime demo_helper "DXP"
            ∅ more_st 5 demo_ticket5 () demo_ticket5 JNull "Client QA"
            (JStr "Unassigned") eq_refl eq_refl eq_refl _).
  discriminate.
Defined.

Lemma found_keys_are_candidates_witness :
  ∃ ticket_id,
    1 ≤ ticket_id ≤ 3 ∧
    "DXP-2" = @ticket_key_of "DXP" ticket_id.
Proof.
  pose (t := {| key := "DXP-2"; summary := "Fix login bug";
                assignee := JStr "Ada" |}).
  apply (@found_keys_are_candidates demo_runtime demo_helper "DXP" 3 demo_st
           (KStr "In Progress") [t] t).
  - vm_compute. reflexivity.
  - apply list_elem_of_singleton. reflexivity.
Defined.

Lemma found_summaries_are_short_witness :
  (py_len (summary board_t4) ≤ 63)%nat ∧
  summary board_t4 = board_cut_summary +:+ "..." ∧
  py_len (summary board_t4) = 63%nat ∧
  String.length (summary board_t4) = 70%nat.
Proof.
  split; [|by split_and!].
  apply (@found_summaries_are_short board_runtime demo_helper "WEB" 4 board_st
           (KStr "In Progress") [board_t4; board_t2; board_t1] board_t4).
  - vm_compute. reflexivity.
  - repeat constructor.
Defined.

Lemma hyphenated_project_raises_witness :
  val (@list_tickets more_runtime demo_helper "A-B" 1 more_st).1 = Raise ValueError.
Proof.
  apply (@hyphenated_project_raises more_runtime demo_helper "A-B" 1 more_st
           "A" "B" [] ValueError "In Progress"
           [{| key := "A-B-1"; summary := "Rename";
               assignee := JStr "Unassigned" |}]).
  - reflexivity.
  - reflexivity.
  - unfold status_order. repeat constructor.
  - not_listed.
  - vm_compute. reflexivity.
  - discriminate.
Defined.


Lemma no_command_prints_usage_witness :
  @main demo_runtime ["jira_helper.py"] demo_st
  = {| stdout := usage; exit_code := 1; final := demo_st |}.
Proof.
  apply (@no_command_prints_usage demo_runtime ["jira_helper.py"] demo_st
           demo_helper eq_refl).
  simpl. lia.
Defined.

Lemma no_credentials_no_run_witness :
  @main locked_runtime ["jira_helper.py"; "list"] locked_st
  = {| stdout := []; exit_code := 1; final := locked_st |}.
Proof.
  refine (proj2 (@no_credentials_no_run locked_runtime
                   (OSError "No such file or directory")
                   ["jira_helper.py"; "list"] locked_st _)).
  left. reflexivity.
Defined.

Lemma missing_arguments_exit_1_witness :
  @main demo_runtime ["jira_helper.py"; "status"; "DXP-2"] demo_st
  = {| stdout := ["Usage: python3 jira_helper.py status TICKET-KEY NEW-STATUS"];
       exit_code := 1; final := demo_st |}.
Proof.
  apply (proj2 (@missing_arguments_exit_1 demo_runtime "jira_helper.py" ["DXP-2"]
                  demo_st demo_helper eq_refl)).
  simpl. lia.
Defined.

Lemma operations_exit_0_witness :
  exit_code (@main more_runtime ["jira_helper.py"; "get"; "DXP-9"] more_st) = 0 ∧
  stdout (@main more_runtime ["jira_helper.py"; "get"; "DXP-9"] more_st)
  = ["Error: HTTP Error 404: Not Found"].
Proof.
  rewrite (proj1 (@operations_exit_0 more_runtime "jira_helper.py" "DXP-9" "" []
                    more_st demo_helper eq_refl)).
  split; reflexivity.
Defined.

Lemma list_command_scans_30_witness :
  ∃ exchanges,
    log (final (@main offline_runtime ["jira_helper.py"; "list"] offline_st))
    = log offline_st ++ exchanges ∧
    exchanges.*1
    = (λ i, issue_request demo_helper (@ticket_key_of "DXP" i)) <$> range_down 30 ∧
    length exchanges = 30%nat.
Proof.
  exact (@list_command_scans_30 offline_runtime "jira_helper.py" [] offline_st
           demo_helper eq_refl).
Defined.

Lemma constructed_client_authenticates_witness :
  ∃ content,
    @read_file demo_runtime "/Users/bgerby/.jira.d/.pass" = Ok content ∧
    token demo_helper = @strip demo_runtime content ∧
    @b64encode demo_runtime ("bgerby@jaxondigital.com" +:+ ":" +:+ token demo_helper)
      = Ok (auth_b64 demo_helper) ∧
    issue_request demo_helper "DXP-2"
    = {| req_url := "https://jaxondigital.atlassian.net/rest/api/3/issue/"
                      +:+ "DXP-2";
         req_method := GET;
         req_headers := [("Authorization", "Basic " +:+ auth_b64 demo_helper);
                         ("Accept", "application/json")];
         req_data := None |}.
Proof.
  exact (@constructed_client_authenticates demo_runtime demo_helper "DXP-2" eq_refl).
Defined.

Lemma unreadable_candidate_is_skipped_witness :
  @try_ticket more_runtime demo_helper "DXP" (∅, more_st) 7
  = (∅, @mkSt more_runtime ()
          [(issue_request demo_helper "DXP-7", Ok demo_ticket7)]).
Proof.
  exact (proj1 (@unreadable_candidate_is_skipped more_runtime demo_helper "DXP"
                  ∅ more_st 7 AttributeError eq_refl)).
Defined.
